(** * Map-App feature API: count, batch and legacy endpoints of server.js

    A shallow embedding of the three feature routes of [server.js]
    (GET /api/features/count, /api/features/batch, /api/features), of the
    process-wide count cache, and of the environment they run in (the
    Mongoose connection, the clock, the feature collection). *)

From Stdlib Require Import ZArith List String Ascii Bool Lia.
From Stdlib Require Import Sorting.Sorted Sorting.Permutation.
From Stdlib Require DecimalString DecimalZ DecimalPos.
Import ListNotations.

Local Open Scope string_scope.
Local Open Scope list_scope.
Local Open Scope Z_scope.

(** ** JavaScript values

    Numbers that the routes compute with ([page], [limit], [skip], counts,
    clock readings) are modelled by the integers they denote; this is exact
    for magnitudes up to 2^53, where an IEEE double holds every integer.
    Strings are sequences of code units below 256. *)

Module JS.

(** The result of [parseInt]: [NaN] or an integer. *)
Inductive Number : Type :=
| NaN
| Num (z : Z).

(** Values found in a lean document or a JSON body. Numeric leaves are
    never computed with by the server, only tested for truthiness. *)
#[warnings="-register-all"]
Inductive Value : Type :=
| Undefined
| Null
| VBool (b : bool)
| VNum (z : Z)
| VNaN
| VStr (s : string)
| VArr (items : list Value)
| VObj (fields : list (string * Value)).

(** ToBoolean. *)
Definition truthy (v : Value) : bool :=
  match v with
  | Undefined | Null | VNaN => false
  | VBool b => b
  | VNum z => negb (z =? 0)
  | VStr s => negb (String.eqb s EmptyString)
  | VArr _ | VObj _ => true
  end.

(** [a || b] on values. *)
Definition or (a b : Value) : Value := if truthy a then a else b.

(** [n || d] where [n] is a number: [NaN] and [0] (and [-0]) are falsy. *)
Definition or_num (n : Number) (d : Z) : Z :=
  match n with
  | NaN => d
  | Num z => if z =? 0 then d else z
  end.

(** What [req.query.<name>] can hold with Express's query parser: nothing,
    a string, a list of strings (a repeated key), or a nested object. *)
Inductive QueryValue : Type :=
| QUndefined
| QStr (s : string)
| QArr (items : list string)
| QObj.

(** ToString, as [parseInt] applies it to its argument. *)
Definition ToString (q : QueryValue) : string :=
  match q with
  | QUndefined => "undefined"
  | QStr s => s
  | QArr items => String.concat "," items
  | QObj => "[object Object]"
  end.

(** StrWhiteSpaceChar, restricted to code units below 256. *)
Definition isWhiteSpace (c : ascii) : bool :=
  let n := nat_of_ascii c in
  ((n =? 9) || (n =? 10) || (n =? 11) || (n =? 12) || (n =? 13)
   || (n =? 32) || (n =? 160))%nat.

Fixpoint trimStart (s : string) : string :=
  match s with
  | String c rest => if isWhiteSpace c then trimStart rest else s
  | EmptyString => EmptyString
  end.

(** The value of a character as a digit in some radix up to 36. *)
Definition digitValue (c : ascii) : option Z :=
  let n := Z.of_nat (nat_of_ascii c) in
  if (48 <=? n) && (n <=? 57) then Some (n - 48)
  else if (97 <=? n) && (n <=? 122) then Some (n - 97 + 10)
  else if (65 <=? n) && (n <=? 90) then Some (n - 65 + 10)
  else None.

Definition radixDigit (R : Z) (c : ascii) : option Z :=
  match digitValue c with
  | Some d => if d <? R then Some d else None
  | None => None
  end.

(** The mathematical value of the longest prefix of [s] made of radix-[R]
    digits; [acc] is [None] as long as no digit was read. *)
Fixpoint digitsPrefix (R : Z) (s : string) (acc : option Z) : option Z :=
  match s with
  | String c rest =>
      match radixDigit R c with
      | Some d =>
          digitsPrefix R rest
            (Some (R * match acc with Some a => a | None => 0 end + d))
      | None => acc
      end
  | EmptyString => acc
  end.

(** [parseInt(string)] with the radix left out: leading white space is
    skipped, a sign is read, a [0x]/[0X] prefix selects radix 16, and the
    longest prefix of digits is the result; no digit gives [NaN]. *)
Definition parseInt (input : string) : Number :=
  let S0 := trimStart input in
  let '(sign, S1) :=
    match S0 with
    | String "-" rest => (-1, rest)
    | String "+" rest => (1, rest)
    | _ => (1, S0)
    end in
  let '(R, S2) :=
    match S1 with
    | String "0" (String "x" rest) => (16, rest)
    | String "0" (String "X" rest) => (16, rest)
    | _ => (10, S1)
    end in
  match digitsPrefix R S2 None with
  | None => NaN
  | Some n => Num (sign * n)
  end.

(** [Number.MAX_SAFE_INTEGER]: up to this magnitude a double holds every
    integer, and [parseInt], [*] and [===] on doubles are the operations
    on integers used here. Beyond it the source rounds where this
    embedding does not, so statements about the value of a number carry
    [safe] as a premise. *)
Definition MAX_SAFE_INTEGER : Z := 2 ^ 53 - 1.

Definition safe (z : Z) : Prop := Z.abs z <= MAX_SAFE_INTEGER.

End JS.

(** ** The feature collection and the queries the routes send to it *)

(** A lean document of the Feature collection. [_id] is the ObjectId read
    as a number (ObjectIds compare bytewise); the fields the routes do not
    read (type, timestamps) are left out. *)
Module Doc.
Record t : Type := mk {
  _id : N;
  geometry : JS.Value;
  properties : JS.Value;
  file : JS.Value
}.
End Doc.

(** The GeoJSON feature a route sends back for a document. *)
Module GeoJSON.
Record t : Type := mk {
  type : string;
  geometry : JS.Value;
  properties : JS.Value;
  file : JS.Value;
  _id : N
}.
End GeoJSON.

(** A Mongoose query as the builder chain leaves it. [lean] and [hint] do
    not change the documents returned and are left out. *)
Module Query.
Record t : Type := mk {
  q_sort : bool;              (* .sort({ _id: 1 }) *)
  q_skip : option Z;          (* .skip(n) *)
  q_limit : option Z;         (* .limit(n) *)
  q_maxTimeMS : option Z      (* .maxTimeMS(ms) *)
}.

(** [Feature.find({})] *)
Definition find : t :=
  {| q_sort := false; q_skip := None; q_limit := None; q_maxTimeMS := None |}.
Definition sort (q : t) : t :=
  {| q_sort := true; q_skip := q_skip q; q_limit := q_limit q;
     q_maxTimeMS := q_maxTimeMS q |}.
Definition skip (n : Z) (q : t) : t :=
  {| q_sort := q_sort q; q_skip := Some n; q_limit := q_limit q;
     q_maxTimeMS := q_maxTimeMS q |}.
Definition limit (n : Z) (q : t) : t :=
  {| q_sort := q_sort q; q_skip := q_skip q; q_limit := Some n;
     q_maxTimeMS := q_maxTimeMS q |}.
Definition maxTimeMS (ms : Z) (q : t) : t :=
  {| q_sort := q_sort q; q_skip := q_skip q; q_limit := q_limit q;
     q_maxTimeMS := Some ms |}.
End Query.

Module Store.

Fixpoint insertById (d : Doc.t) (l : list Doc.t) : list Doc.t :=
  match l with
  | [] => [d]
  | x :: rest =>
      if (Doc._id d <=? Doc._id x)%N then d :: l else x :: insertById d rest
  end.

(** The collection in ascending order of [_id]. *)
Definition sortById (l : list Doc.t) : list Doc.t :=
  fold_right insertById [] l.

(** The documents a query yields on a collection: sort, then skip, then
    limit. The store is an external collaborator; this is its behaviour
    for [0 <= skip] and [0 < limit], and the statements below about the
    records returned are made for that range only. *)
Definition exec (coll : list Doc.t) (q : Query.t) : list Doc.t :=
  let sorted := if Query.q_sort q then sortById coll else coll in
  let skipped :=
    match Query.q_skip q with
    | Some n => skipn (Z.to_nat n) sorted
    | None => sorted
    end in
  match Query.q_limit q with
  | Some n => firstn (Z.to_nat n) skipped
  | None => skipped
  end.

End Store.

(** ** The environment of a request and the monad of the handlers *)

Module Env.

(** What a handler does to the outside: store operations and timers. *)
Inductive Event : Type :=
| EvEstimatedCount
| EvCountDocuments
| EvFind (q : Query.t)
| EvCursor (q : Query.t) (batchSize : Z)
| EvSleep (ms : Z).

(** What happens on one store operation: it throws an error with a message
    or answers, takes some time, and may leave the connection in another
    ready state. *)
Record Outcome : Type := {
  fault : option string;
  elapsed : Z;
  connection : option Z
}.

(** The outcome when nothing is scheduled: the store answers at once. *)
Definition calm : Outcome :=
  {| fault := None; elapsed := 0; connection := None |}.

(** The two module-level variables of server.js. *)
Record Cache : Type := {
  cachedCount : option Z;     (* null is None *)
  countCacheTime : Z
}.

(** [let cachedCount = null; let countCacheTime = 0;] *)
Definition initialCache : Cache :=
  {| cachedCount := None; countCacheTime := 0 |}.

Record World : Type := {
  readyState : Z;             (* mongoose.connection.readyState *)
  clock : Z;                  (* Date.now() *)
  collection : list Doc.t;    (* the documents, in natural order *)
  estimate : Z;               (* the count kept in the collection metadata *)
  cache : Cache;
  pending : list Outcome;     (* outcomes of the store operations to come *)
  log : list Event            (* what the handlers did, oldest first *)
}.

Inductive Result (A : Type) : Type :=
| Val (a : A)
| Thrown (message : string).
Arguments Val {A} a.
Arguments Thrown {A} message.

(** A computation reads and changes the world and returns or throws. *)
Definition M (A : Type) : Type := World -> Result A * World.

Definition ret {A} (a : A) : M A := fun w => (Val a, w).

Definition bind {A B} (c : M A) (k : A -> M B) : M B :=
  fun w =>
    match c w with
    | (Val a, w') => k a w'
    | (Thrown msg, w') => (Thrown msg, w')
    end.

(** [throw new Error(message)], or an error the engine throws. *)
Definition throw {A} (message : string) : M A :=
  fun w => (Thrown message, w).

(** [try { c } catch (err) { h err.message }] *)
Definition try_catch {A} (c : M A) (h : string -> M A) : M A :=
  fun w =>
    match c w with
    | (Val a, w') => (Val a, w')
    | (Thrown msg, w') => h msg w'
    end.

Definition get_readyState : M Z := fun w => (Val (readyState w), w).
Definition date_now : M Z := fun w => (Val (clock w), w).
Definition get_cache : M Cache := fun w => (Val (cache w), w).

(** The world after an assignment to the two cache variables. *)
Definition with_cache (c : Cache) (w : World) : World :=
  {| readyState := readyState w; clock := clock w;
     collection := collection w; estimate := estimate w;
     cache := c; pending := pending w; log := log w |}.

Definition set_cache (c : Cache) : M unit :=
  fun w => (Val tt, with_cache c w).

(** The world after a timer of [ms] milliseconds. *)
Definition slept (ms : Z) (w : World) : World :=
  {| readyState := readyState w; clock := clock w + ms;
     collection := collection w; estimate := estimate w;
     cache := cache w; pending := pending w;
     log := log w ++ [EvSleep ms] |}.

(** [await new Promise(resolve => setTimeout(resolve, ms))] *)
Definition sleep (ms : Z) : M unit :=
  fun w => (Val tt, slept ms w).

(** The world after a store operation: its outcome is consumed, its time
    has passed, the connection is as the outcome leaves it. *)
Definition advance (ev : Event) (w : World) : World :=
  let o := hd calm (pending w) in
  {| readyState :=
       match connection o with Some c => c | None => readyState w end;
     clock := clock w + elapsed o;
     collection := collection w; estimate := estimate w;
     cache := cache w; pending := tl (pending w);
     log := log w ++ [ev] |}.

(** An awaited store operation: the next scheduled outcome decides whether
    it throws; the answer is computed on the world as it was when asked. *)
Definition store_call {A} (ev : Event) (answer : World -> A) : M A :=
  fun w =>
    match fault (hd calm (pending w)) with
    | Some msg => (Thrown msg, advance ev w)
    | None => (Val (answer w), advance ev w)
    end.

(** [await Feature.estimatedDocumentCount().maxTimeMS(10000)] *)
Definition estimatedDocumentCount : M Z :=
  store_call EvEstimatedCount estimate.

(** [await Feature.countDocuments({}).maxTimeMS(10000)] *)
Definition countDocuments : M Z :=
  store_call EvCountDocuments (fun w => Z.of_nat (List.length (collection w))).

(** [await query] *)
Definition exec_query (q : Query.t) : M (list Doc.t) :=
  store_call (EvFind q) (fun w => Store.exec (collection w) q).

(** Draining [query.cursor({ batchSize })] with [for await]. *)
Definition exec_cursor (q : Query.t) (batchSize : Z) : M (list Doc.t) :=
  store_call (EvCursor q batchSize) (fun w => Store.exec (collection w) q).

End Env.

(** What [query.cursor(options)] returns: a Mongoose QueryCursor. It is
    not a query any more: of the builder methods only those of a cursor
    are left, and [maxTimeMS] is not one of them. *)
Module QueryCursor.

Record t : Type := mk {
  query : Query.t;
  batchSize : Z
}.

(** [query.cursor({ batchSize })]: the cursor is created, nothing is sent
    to the store yet. *)
Definition cursor (batchSize : Z) (q : Query.t) : t :=
  {| query := q; batchSize := batchSize |}.

(** The message of the TypeError for the call on line 225, as the engine
    words it. *)
Definition noMaxTimeMS : string :=
  "Feature.find(...).lean(...).cursor(...).maxTimeMS is not a function".

(** [cursor.maxTimeMS(ms)]: the property is undefined, calling it throws
    a TypeError. *)
Definition maxTimeMS (ms : Z) (c : t) : Env.M t :=
  Env.throw noMaxTimeMS.

(** [for await (const doc of cursor)]: the documents the cursor yields. *)
Definition drain (c : t) : Env.M (list Doc.t) :=
  Env.exec_cursor (query c) (batchSize c).

End QueryCursor.

Declare Scope handler_scope.
Delimit Scope handler_scope with handler.
Notation "x <- c ;; k" := (Env.bind c (fun x => k))
  (at level 100, c at next level, right associativity) : handler_scope.
Notation "c ;;; k" := (Env.bind c (fun _ => k))
  (at level 100, right associativity) : handler_scope.

(** ** Requests and responses *)

Module Express.

(** [req.query] as far as the routes read it. *)
Record Request : Type := {
  query_page : JS.QueryValue;
  query_limit : JS.QueryValue
}.

(** The JSON bodies the three routes send. *)
Inductive Body : Type :=
| ErrorBody (error : string) (message : option string) (attempts : option Z)
| CountBody (count : Z) (cached : bool)
| BatchBody (features : list GeoJSON.t) (page limit : Z) (hasMore : bool)
    (count : Z)
| CollectionBody (type : string) (features : list GeoJSON.t).

Record Response : Type := {
  status : Z;
  body : Body
}.

(** [res.json(b)] *)
Definition json (b : Body) : Response := {| status := 200; body := b |}.

(** [res.status(code).json(b)] *)
Definition status_json (code : Z) (b : Body) : Response :=
  {| status := code; body := b |}.

(** How a handler ends: it sent a response, it returned without sending
    one, or the model's loop bound was reached first. *)
Inductive Reply : Type :=
| Sent (r : Response)
| Silent
| Unfinished.

End Express.

(** ** The routes of server.js *)

Module Server.
Import Env Express.
Local Open Scope handler_scope.

Definition COUNT_CACHE_TTL : Z := 30000.

(** [const maxRetries = 3;] in the count and the batch route. *)
Definition maxRetries : Z := 3.

(** [res.status(503).json({ error: "Database not connected" })] *)
Definition notConnected : Response :=
  status_json 503 (ErrorBody "Database not connected" None None).

(** [{ type: "Point", coordinates: [0, 0] }] *)
Definition defaultGeometry : JS.Value :=
  JS.VObj [("type", JS.VStr "Point");
           ("coordinates", JS.VArr [JS.VNum 0; JS.VNum 0])].

(** The object literal both the batch and the legacy route build from a
    document. *)
Definition toFeature (f : Doc.t) : GeoJSON.t :=
  {| GeoJSON.type := "Feature";
     GeoJSON.geometry := JS.or (Doc.geometry f) defaultGeometry;
     GeoJSON.properties := JS.or (Doc.properties f) (JS.VObj []);
     GeoJSON.file := JS.or (Doc.file f) (JS.VStr "default");
     GeoJSON._id := Doc._id f |}.

(** *** GET /api/features/count *)

(** The count query with its fallback, the two assignments to the cache
    and the fresh response (lines 110-125). *)
Definition count_fresh (now : Z) : M Response :=
  startTime <- date_now ;;
  count <- try_catch estimatedDocumentCount (fun _ => countDocuments) ;;
  set_cache {| cachedCount := Some count; countCacheTime := now |} ;;;
  ret (json (CountBody count false)).

(** The body of the [try] block of the count route. *)
Definition count_try : M Response :=
  rs <- get_readyState ;;
  if negb (rs =? 1) then ret notConnected
  else
    now <- date_now ;;
    c <- get_cache ;;
    match cachedCount c with
    | Some cached =>
        if now - countCacheTime c <? COUNT_CACHE_TTL
        then ret (json (CountBody cached true))
        else count_fresh now
    | None => count_fresh now
    end.

(** The [while (attempt < maxRetries)] loop of the count route. *)
Fixpoint count_loop (fuel : nat) (attempt : Z) : M Reply :=
  if attempt <? maxRetries then
    match fuel with
    | O => ret Unfinished
    | S fuel' =>
        try_catch (r <- count_try ;; ret (Sent r))
          (fun message =>
             let attempt := attempt + 1 in
             if attempt >=? maxRetries then
               ret (Sent (status_json 500
                            (ErrorBody "Failed to count features"
                               (Some message) None)))
             else
               sleep (1000 * attempt) ;;;
               count_loop fuel' attempt)
    end
  else ret Silent.

Definition count_handler : M Reply :=
  count_loop (Z.to_nat maxRetries) 0.

(** *** GET /api/features/batch *)

Definition batch_page (req : Request) : Z :=
  JS.or_num (JS.parseInt (JS.ToString (query_page req))) 0.

Definition batch_limit (req : Request) : Z :=
  JS.or_num (JS.parseInt (JS.ToString (query_limit req))) 500.

(** The query of lines 162-168. *)
Definition batch_query (skip limit : Z) : Query.t :=
  Query.maxTimeMS 50000
    (Query.limit limit (Query.skip skip (Query.sort Query.find))).

(** The body of the [try] block of the batch route. *)
Definition batch_try (req : Request) : M Response :=
  rs <- get_readyState ;;
  if negb (rs =? 1) then ret notConnected
  else
    let page := batch_page req in
    let limit := batch_limit req in
    let skip := page * limit in
    startTime <- date_now ;;
    features <- exec_query (batch_query skip limit) ;;
    let geojsonFeatures := map toFeature features in
    let hasMore := Z.of_nat (List.length features) =? limit in
    ret (json (BatchBody geojsonFeatures page limit hasMore
                 (Z.of_nat (List.length geojsonFeatures)))).

(** [Math.min(1000 * Math.pow(2, attempt - 1), 5000)] *)
Definition waitTime (attempt : Z) : Z :=
  Z.min (1000 * 2 ^ (attempt - 1)) 5000.

(** The [while (attempt < maxRetries)] loop of the batch route. *)
Fixpoint batch_loop (fuel : nat) (attempt : Z) (req : Request) : M Reply :=
  if attempt <? maxRetries then
    match fuel with
    | O => ret Unfinished
    | S fuel' =>
        try_catch (r <- batch_try req ;; ret (Sent r))
          (fun message =>
             let attempt := attempt + 1 in
             if attempt >=? maxRetries then
               ret (Sent (status_json 500
                            (ErrorBody "Failed to fetch batch after retries"
                               (Some message) (Some maxRetries))))
             else
               sleep (waitTime attempt) ;;;
               batch_loop fuel' attempt req)
    end
  else ret Silent.

Definition batch_handler (req : Request) : M Reply :=
  batch_loop (Z.to_nat maxRetries) 0 req.

(** *** GET /api/features (legacy) *)

Definition features_handler : M Reply :=
  try_catch
    (rs <- get_readyState ;;
     if negb (rs =? 1) then ret (Sent notConnected)
     else
       cursor <- QueryCursor.maxTimeMS 60000
                   (QueryCursor.cursor 500 Query.find) ;;
       docs <- QueryCursor.drain cursor ;;
       let features :=
         fold_left (fun acc doc => (acc ++ [toFeature doc])%list) docs [] in
       ret (Sent (json (CollectionBody "FeatureCollection" features))))
    (fun message =>
       ret (Sent (status_json 500
                    (ErrorBody "Failed to fetch features"
                       (Some message) None)))).

(** The response of a batch attempt whose query the store answers on the
    collection [coll]. *)
Definition batch_response (req : Request) (coll : list Doc.t) : Response :=
  let page := batch_page req in
  let limit := batch_limit req in
  let features := Store.exec coll (batch_query (page * limit) limit) in
  json (BatchBody (map toFeature features) page limit
          (Z.of_nat (List.length features) =? limit)
          (Z.of_nat (List.length (map toFeature features)))).

(** The store operation of a batch attempt. *)
Definition batch_event (req : Request) : Event :=
  EvFind (batch_query (batch_page req * batch_limit req) (batch_limit req)).

(** The 500 responses of the three routes. *)
Definition countFailed (message : string) : Response :=
  status_json 500 (ErrorBody "Failed to count features" (Some message) None).

Definition batchFailed (message : string) : Response :=
  status_json 500
    (ErrorBody "Failed to fetch batch after retries" (Some message)
       (Some maxRetries)).

Definition featuresFailed (message : string) : Response :=
  status_json 500 (ErrorBody "Failed to fetch features" (Some message) None).

End Server.

(** ** The spec's vocabulary *)

Module Spec.

Definition isDigit (c : ascii) : bool :=
  let n := nat_of_ascii c in ((48 <=? n) && (n <=? 57))%nat.

Fixpoint allDigits (s : string) : bool :=
  match s with
  | String c rest => isDigit c && allDigits rest
  | EmptyString => true
  end.

(** A well-formed value of [page] or [limit]: a decimal integer, that is
    an optional sign and one digit or more, and nothing else. *)
Definition isInteger (s : string) : bool :=
  let digits :=
    match s with
    | String "-" rest => rest
    | String "+" rest => rest
    | _ => s
    end in
  negb (String.eqb digits EmptyString) && allDigits digits.

(** The parameter is absent from the query string. *)
Definition absent (q : JS.QueryValue) : Prop := q = JS.QUndefined.

(** The parameter is present and is not a decimal integer. *)
Definition malformed (q : JS.QueryValue) : Prop :=
  match q with
  | JS.QUndefined => False
  | JS.QStr s => isInteger s = false
  | JS.QArr _ | JS.QObj => True
  end.

(** The cached count is fresh at clock reading [now]: the test of line
    105. *)
Definition fresh (c : Env.Cache) (now : Z) : bool :=
  match Env.cachedCount c with
  | Some _ => now - Env.countCacheTime c <? Server.COUNT_CACHE_TTL
  | None => false
  end.

(** A store outcome that throws. *)
Definition fails (o : Env.Outcome) : Prop := Env.fault o <> None.

(** A store outcome that leaves the connection ready. *)
Definition staysReady (o : Env.Outcome) : Prop :=
  Env.connection o = None \/ Env.connection o = Some 1.

(** The documents are in ascending order of [_id]. *)
Definition ascendingById (l : list Doc.t) : Prop :=
  StronglySorted (fun a b => (Doc._id a <= Doc._id b)%N) l.

(** The number of store operations in a log. *)
Definition storeOps (l : list Env.Event) : nat :=
  List.length
    (filter (fun e => match e with Env.EvSleep _ => false | _ => true end) l).

(** The timers in a log. *)
Definition sleeps (l : list Env.Event) : list Z :=
  flat_map (fun e => match e with Env.EvSleep ms => [ms] | _ => [] end) l.

End Spec.

(** ** Sample inputs *)

Module Sample.
Import Env Express.

Definition point (x y : Z) : JS.Value :=
  JS.VObj [("type", JS.VStr "Point");
           ("coordinates", JS.VArr [JS.VNum x; JS.VNum y])].

Definition full (id : N) : Doc.t :=
  {| Doc._id := id; Doc.geometry := point 12 34;
     Doc.properties := JS.VObj [("name", JS.VStr "well")];
     Doc.file := JS.VStr "wells" |}.

(** A document with nothing but its [_id]. *)
Definition bare (id : N) : Doc.t :=
  {| Doc._id := id; Doc.geometry := JS.Undefined;
     Doc.properties := JS.Undefined; Doc.file := JS.Undefined |}.

Definition threeDocs : list Doc.t := [full 3; bare 1; full 2].

Definition throws (msg : string) : Outcome :=
  {| fault := Some msg; elapsed := 40; connection := None |}.

Definition answersIn (ms : Z) : Outcome :=
  {| fault := None; elapsed := ms; connection := None |}.

(** A connected server that has cached nothing yet. *)
Definition world (coll : list Doc.t) (script : list Outcome) : World :=
  {| readyState := 1; clock := 1000; collection := coll;
     estimate := Z.of_nat (List.length coll); cache := initialCache;
     pending := script; log := [] |}.

(** The same with the connection down. *)
Definition offline (coll : list Doc.t) : World :=
  {| readyState := 0; clock := 1000; collection := coll;
     estimate := Z.of_nat (List.length coll); cache := initialCache;
     pending := []; log := [] |}.

(** A later moment: the clock reads [t], nothing else has changed. *)
Definition at_time (t : Z) (w : World) : World :=
  {| readyState := readyState w; clock := t; collection := collection w;
     estimate := estimate w; cache := cache w; pending := pending w;
     log := log w |}.

Definition request (page limit : JS.QueryValue) : Request :=
  {| query_page := page; query_limit := limit |}.

Definition noParams : Request := request JS.QUndefined JS.QUndefined.

End Sample.

(** ** The outcomes of one attempt, as relations *)

Module Attempt.
Import Env Express Server.

(** How one pass through the [try] block of the count route can end. *)
Inductive Count (w : World) : Result Response -> World -> Prop :=
| CountOffline :
    readyState w <> 1 ->
    Count w (Val notConnected) w
| CountCached (c : Z) :
    readyState w = 1 ->
    cachedCount (cache w) = Some c ->
    clock w - countCacheTime (cache w) < COUNT_CACHE_TTL ->
    Count w (Val (json (CountBody c true))) w
| CountEstimated :
    readyState w = 1 ->
    Spec.fresh (cache w) (clock w) = false ->
    fault (hd calm (pending w)) = None ->
    Count w (Val (json (CountBody (estimate w) false)))
      (with_cache
         {| cachedCount := Some (estimate w); countCacheTime := clock w |}
         (advance EvEstimatedCount w))
| CountExact (m : string) :
    readyState w = 1 ->
    Spec.fresh (cache w) (clock w) = false ->
    fault (hd calm (pending w)) = Some m ->
    fault (hd calm (tl (pending w))) = None ->
    Count w
      (Val (json (CountBody (Z.of_nat (List.length (collection w))) false)))
      (with_cache
         {| cachedCount := Some (Z.of_nat (List.length (collection w)));
            countCacheTime := clock w |}
         (advance EvCountDocuments (advance EvEstimatedCount w)))
| CountThrown (m1 m2 : string) :
    readyState w = 1 ->
    Spec.fresh (cache w) (clock w) = false ->
    fault (hd calm (pending w)) = Some m1 ->
    fault (hd calm (tl (pending w))) = Some m2 ->
    Count w (Thrown m2)
      (advance EvCountDocuments (advance EvEstimatedCount w)).

(** How one pass through the [try] block of the batch route can end. *)
Inductive Batch (req : Request) (w : World) :
  Result Response -> World -> Prop :=
| BatchOffline :
    readyState w <> 1 ->
    Batch req w (Val notConnected) w
| BatchAnswered :
    readyState w = 1 ->
    fault (hd calm (pending w)) = None ->
    Batch req w (Val (batch_response req (collection w)))
      (advance (batch_event req) w)
| BatchThrown (m : string) :
    readyState w = 1 ->
    fault (hd calm (pending w)) = Some m ->
    Batch req w (Thrown m) (advance (batch_event req) w).

End Attempt.

(** ** Requests as a client writes them, and sequences of requests *)

Module Client.
Import Env Express.

(** The decimal text of an integer, as it stands in a query string. *)
Definition decimal (z : Z) : string :=
  DecimalString.NilZero.string_of_int (Z.to_int z).

(** The text goes on with something that is not a decimal digit, or ends. *)
Definition noDigitAhead (suffix : string) : Prop :=
  match suffix with
  | EmptyString => True
  | String c _ => Spec.isDigit c = false
  end.

(** The text does not go on with [x] or [X]. *)
Definition noHexMark (suffix : string) : Prop :=
  match suffix with
  | EmptyString => True
  | String c _ => c <> "x"%char /\ c <> "X"%char
  end.

(** [GET /api/features/batch?page=<page>&limit=<limit>] *)
Definition pageRequest (limit : Z) (page : nat) : Request :=
  {| query_page := JS.QStr (decimal (Z.of_nat page));
     query_limit := JS.QStr (decimal limit) |}.

(** The features and the [hasMore] flag of a reply; a reply that is not a
    batch has none. *)
Definition features (r : Result Reply) : list GeoJSON.t :=
  match r with
  | Val (Sent {| body := BatchBody fs _ _ _ _ |}) => fs
  | Val (Sent {| body := CollectionBody _ fs |}) => fs
  | _ => []
  end.

Definition hasMore (r : Result Reply) : bool :=
  match r with
  | Val (Sent {| body := BatchBody _ _ _ more _ |}) => more
  | _ => false
  end.

(** Batch requests sent one after the other; each one runs in the world
    the one before left. *)
Fixpoint fetch (reqs : list Request) (w : World)
  : list (Result Reply) * World :=
  match reqs with
  | [] => ([], w)
  | req :: rest =>
      let (r, w1) := Server.batch_handler req w in
      let (rs, w2) := fetch rest w1 in
      (r :: rs, w2)
  end.

(** The clock reads [t], nothing else has changed. *)
Definition at_time (t : Z) (w : World) : World :=
  {| readyState := readyState w; clock := t; collection := collection w;
     estimate := estimate w; cache := cache w; pending := pending w;
     log := log w |}.

(** Count requests sent one after the other, the clock reading [t] when
    each one comes in. *)
Fixpoint poll (times : list Z) (w : World) : list (Result Reply) * World :=
  match times with
  | [] => ([], w)
  | t :: rest =>
      let (r, w1) := Server.count_handler (at_time t w) in
      let (rs, w2) := poll rest w1 in
      (r :: rs, w2)
  end.

(** A world in which the connection is ready and stays so, and every
    scheduled store operation answers. *)
Definition quiet (w : World) : Prop :=
  readyState w = 1 /\
  Forall (fun o => fault o = None /\ Spec.staysReady o) (pending w).

End Client.

(** ** GET /health *)

Module Health.
Import Env.
Local Open Scope handler_scope.

(** The body of the health response. [timestamp] is the instant of
    [new Date()], in milliseconds; its rendering by [toISOString] is not
    modelled. *)
Record Body : Type := {
  status : string;
  database : string;
  timestamp : Z
}.

Record Response : Type := {
  code : Z;
  body : Body
}.

Definition health_handler : M Response :=
  rs <- get_readyState ;;
  let dbStatus := if rs =? 1 then "connected" else "disconnected" in
  now <- date_now ;;
  ret {| code := 200;
         body := {| status := "ok"; database := dbStatus;
                    timestamp := now |} |}.

End Health.

(** ** Start-up: connectDB and setupIndexes *)

Module Boot.

(** The environment variables server.js reads. *)
Record ProcessEnv : Type := {
  MONGO_URI : option string;
  NODE_ENV : option string;
  PORT : option string
}.

Inductive Event : Type :=
| EvConnect (uri : string)
| EvCreateIndex (field : string)
| EvExit (code : Z).

(** The process while it starts: its environment, the ready state of the
    Mongoose connection, the outcomes of the driver calls to come, what
    was done so far, and the exit code once [process.exit] was called. *)
Record Process : Type := {
  env : ProcessEnv;
  readyState : Z;
  pending : list Env.Outcome;
  log : list Event;
  exitCode : option Z
}.

Definition B (A : Type) : Type := Process -> Env.Result A * Process.

Definition ret {A} (a : A) : B A := fun p => (Env.Val a, p).

Definition throw {A} (message : string) : B A :=
  fun p => (Env.Thrown message, p).

Definition bind {A C} (c : B A) (k : A -> B C) : B C :=
  fun p =>
    match c p with
    | (Env.Val a, p') => k a p'
    | (Env.Thrown msg, p') => (Env.Thrown msg, p')
    end.

Definition try_catch {A} (c : B A) (h : string -> B A) : B A :=
  fun p =>
    match c p with
    | (Env.Val a, p') => (Env.Val a, p')
    | (Env.Thrown msg, p') => h msg p'
    end.

Definition get_env : B ProcessEnv := fun p => (Env.Val (env p), p).

(** The process after a driver call: the outcome is consumed, the call is
    logged, the connection is in state [rs]. *)
Definition called (ev : Event) (rs : Z) (p : Process) : Process :=
  {| env := env p; readyState := rs; pending := tl (pending p);
     log := log p ++ [ev]; exitCode := exitCode p |}.

(** [await mongoose.connect(uri, options)]: the connection is ready when
    the call returns, and is left as it was when it throws. *)
Definition connect (uri : string) : B unit :=
  fun p =>
    match Env.fault (hd Env.calm (pending p)) with
    | Some msg => (Env.Thrown msg, called (EvConnect uri) (readyState p) p)
    | None => (Env.Val tt, called (EvConnect uri) 1 p)
    end.

(** [await Feature.collection.createIndex({ field: 1 })] *)
Definition createIndex (field : string) : B unit :=
  fun p =>
    let p' := called (EvCreateIndex field) (readyState p) p in
    match Env.fault (hd Env.calm (pending p)) with
    | Some msg => (Env.Thrown msg, p')
    | None => (Env.Val tt, p')
    end.

(** [process.exit(code)] *)
Definition exit (code : Z) : B unit :=
  fun p =>
    (Env.Val tt,
     {| env := env p; readyState := readyState p; pending := pending p;
        log := log p ++ [EvExit code]; exitCode := Some code |}).

(** A variable of [process.env] is falsy when unset or empty. *)
Definition unset (v : option string) : bool :=
  match v with
  | None => true
  | Some s => String.eqb s EmptyString
  end.

Definition setupIndexes : B unit :=
  try_catch
    (bind (createIndex "_id") (fun _ =>
     bind (createIndex "file") (fun _ =>
     ret tt)))
    (fun _ => ret tt).

Definition connectDB : B unit :=
  try_catch
    (bind get_env (fun e =>
     if unset (MONGO_URI e)
     then throw "MONGO_URI environment variable is not set"
     else
       bind (connect (match MONGO_URI e with Some u => u | None => EmptyString end))
         (fun _ => setupIndexes)))
    (fun _ =>
       bind get_env (fun e =>
       match NODE_ENV e with
       | Some mode =>
           if String.eqb mode "development" then exit 1 else ret tt
       | None => ret tt
       end)).

(** A connect call is in the log. *)
Definition connects (l : list Event) : bool :=
  existsb (fun e => match e with EvConnect _ => true | _ => false end) l.

End Boot.

(** ** The batch contract in the spec's words *)

Module Expected.

(** A GeoJSON feature for a record, "substituting a default point
    geometry and empty properties when absent", and "default" for the
    file tag. *)
Definition feature (d : Doc.t) : GeoJSON.t :=
  {| GeoJSON.type := "Feature";
     GeoJSON.geometry :=
       if JS.truthy (Doc.geometry d) then Doc.geometry d
       else JS.VObj [("type", JS.VStr "Point");
                     ("coordinates", JS.VArr [JS.VNum 0; JS.VNum 0])];
     GeoJSON.properties :=
       if JS.truthy (Doc.properties d) then Doc.properties d
       else JS.VObj [];
     GeoJSON.file :=
       if JS.truthy (Doc.file d) then Doc.file d else JS.VStr "default";
     GeoJSON._id := Doc._id d |}.

(** The records of a page: the store "sorted ascending by [_id]", after
    skipping [page * limit] records, [limit] records at most. *)
Definition records (coll : list Doc.t) (page limit : Z) : list Doc.t :=
  firstn (Z.to_nat limit)
    (skipn (Z.to_nat (page * limit)) (Store.sortById coll)).

(** The query the contract describes. *)
Definition query (page limit : Z) : Query.t :=
  {| Query.q_sort := true; Query.q_skip := Some (page * limit);
     Query.q_limit := Some limit; Query.q_maxTimeMS := Some 50000 |}.

End Expected.

(** ** A count request among other requests

    A handler in [Env.M] is one request on its own. In the process other
    requests run while this one waits in an [await], and a count request
    among them may assign [cachedCount] and [countCacheTime]. For the
    request that waits this matters at one point only, the cache test of
    its next attempt: a successful attempt assigns both variables itself
    after its last [await], whatever was assigned meanwhile. So the loop
    of the count route is taken again with, before each retry, the
    assignment that landed since the cache test of the attempt that
    failed ([None]: there was none). *)

Module Interleaved.
Import Env Express Server.
Local Open Scope handler_scope.

(** The world once the assignment of another request has landed. *)
Definition landed (other : option Cache) (w : World) : World :=
  match other with
  | Some c => with_cache c w
  | None => w
  end.

Definition land (other : option Cache) : M unit :=
  fun w => (Val tt, landed other w).

(** The [while] loop of the count route, among other requests. *)
Fixpoint count_loop (others : list (option Cache)) (fuel : nat)
    (attempt : Z) : M Reply :=
  if attempt <? maxRetries then
    match fuel with
    | O => ret Unfinished
    | S fuel' =>
        try_catch (r <- count_try ;; ret (Sent r))
          (fun message =>
             let attempt := attempt + 1 in
             if attempt >=? maxRetries then
               ret (Sent (status_json 500
                            (ErrorBody "Failed to count features"
                               (Some message) None)))
             else
               sleep (1000 * attempt) ;;;
               land (hd None others) ;;;
               count_loop (tl others) fuel' attempt)
    end
  else ret Silent.

Definition count_handler (others : list (option Cache)) : M Reply :=
  count_loop others (Z.to_nat maxRetries) 0.

(** The world in which the next attempt starts, [ms] milliseconds after an
    attempt whose two count queries threw. *)
Definition nextStart (ms : Z) (other : option Cache) (w : World) : World :=
  landed other
    (slept ms (advance EvCountDocuments (advance EvEstimatedCount w))).

End Interleaved.

(** ** [parseInt] on some query values *)

Example parseInt_digits : JS.parseInt "12" = JS.Num 12.
Proof. reflexivity. Qed.

Example parseInt_letters : JS.parseInt "abc" = JS.NaN.
Proof. reflexivity. Qed.

Example parseInt_empty : JS.parseInt EmptyString = JS.NaN.
Proof. reflexivity. Qed.

Example parseInt_prefix : JS.parseInt "2abc" = JS.Num 2.
Proof. reflexivity. Qed.

Example parseInt_fraction : JS.parseInt "1.9" = JS.Num 1.
Proof. reflexivity. Qed.

Example parseInt_blank_sign : JS.parseInt "  -42" = JS.Num (-42).
Proof. reflexivity. Qed.

Example parseInt_hex : JS.parseInt "0x1F" = JS.Num 31.
Proof. reflexivity. Qed.

Example parseInt_hex_empty : JS.parseInt "0x" = JS.NaN.
Proof. reflexivity. Qed.

Example parseInt_absent : JS.parseInt (JS.ToString JS.QUndefined) = JS.NaN.
Proof. reflexivity. Qed.

Example parseInt_repeated :
  JS.parseInt (JS.ToString (JS.QArr ["3"; "4"])) = JS.Num 3.
Proof. reflexivity. Qed.

Example parseInt_object : JS.parseInt (JS.ToString JS.QObj) = JS.NaN.
Proof. reflexivity. Qed.

(** ** Facts about the store *)

Section StoreFacts.

Lemma insertById_perm (d : Doc.t) (l : list Doc.t) :
  Permutation (Store.insertById d l) (d :: l).
Proof.
  induction l as [|x rest IH]; simpl.
  - apply Permutation_refl.
  - destruct (Doc._id d <=? Doc._id x)%N.
    + apply Permutation_refl.
    + apply perm_trans with (x :: d :: rest).
      * apply perm_skip, IH.
      * apply perm_swap.
Qed.

Lemma sortById_perm (l : list Doc.t) : Permutation (Store.sortById l) l.
Proof.
  induction l as [|d rest IH]; simpl.
  - apply perm_nil.
  - apply perm_trans with (d :: Store.sortById rest).
    + apply insertById_perm.
    + apply perm_skip, IH.
Qed.

Lemma insertById_sorted (d : Doc.t) (l : list Doc.t) :
  Spec.ascendingById l -> Spec.ascendingById (Store.insertById d l).
Proof.
  unfold Spec.ascendingById.
  induction l as [|x rest IH]; simpl; intros Hs.
  - constructor; constructor.
  - inversion Hs as [|? ? Hrest Hall]; subst.
    destruct (N.leb_spec (Doc._id d) (Doc._id x)) as [Hle|Hgt].
    + constructor; [assumption|].
      constructor; [assumption|].
      eapply Forall_impl; [|exact Hall].
      intros y Hy; simpl in Hy. lia.
    + constructor; [apply IH; assumption|].
      apply (Permutation_Forall (Permutation_sym (insertById_perm d rest))).
      constructor; [lia | assumption].
Qed.

Lemma sortById_sorted (l : list Doc.t) : Spec.ascendingById (Store.sortById l).
Proof.
  induction l as [|d rest IH]; simpl.
  - constructor.
  - apply insertById_sorted, IH.
Qed.

(** The batch query yields the collection sorted by [_id], minus the first
    [skip] documents, cut after [limit] documents. *)
Lemma exec_batch_query (coll : list Doc.t) (skip limit : Z) :
  Store.exec coll (Server.batch_query skip limit) =
  firstn (Z.to_nat limit) (skipn (Z.to_nat skip) (Store.sortById coll)).
Proof. reflexivity. Qed.

Lemma exec_batch_query_length (coll : list Doc.t) (skip limit : Z) :
  0 < limit ->
  Z.of_nat (List.length (Store.exec coll (Server.batch_query skip limit)))
  <= limit.
Proof.
  intros Hl. rewrite exec_batch_query.
  pose proof (firstn_le_length (Z.to_nat limit)
                (skipn (Z.to_nat skip) (Store.sortById coll))).
  lia.
Qed.

(** The legacy query yields the whole collection, in its natural order. *)
Lemma exec_find_all (coll : list Doc.t) (ms : Z) :
  Store.exec coll (Query.maxTimeMS ms Query.find) = coll.
Proof. reflexivity. Qed.

End StoreFacts.

(** ** One attempt of each route *)

(** The ready-state test of a route passes. *)
Ltac connected Hr :=
  cbv beta; rewrite Hr; change (negb (1 =? 1)) with false; cbv beta iota.

Section Attempts.
Import Env Express Server.

Variable w : World.

Lemma count_try_offline :
  readyState w <> 1 -> count_try w = (Val notConnected, w).
Proof.
  intros H. unfold count_try, bind, get_readyState.
  destruct (Z.eqb_spec (readyState w) 1); [contradiction | reflexivity].
Qed.

Lemma count_try_cached (c : Z) :
  readyState w = 1 ->
  cachedCount (cache w) = Some c ->
  clock w - countCacheTime (cache w) < COUNT_CACHE_TTL ->
  count_try w = (Val (json (CountBody c true)), w).
Proof.
  intros Hr Hc Ht. unfold count_try, bind, get_readyState, date_now, get_cache.
  connected Hr. rewrite Hc.
  destruct (Z.ltb_spec (clock w - countCacheTime (cache w)) COUNT_CACHE_TTL);
    [reflexivity | lia].
Qed.

Lemma count_try_stale :
  readyState w = 1 ->
  Spec.fresh (cache w) (clock w) = false ->
  count_try w = count_fresh (clock w) w.
Proof.
  intros Hr Hs. unfold count_try, bind, get_readyState, date_now, get_cache.
  connected Hr. unfold Spec.fresh in Hs.
  destruct (cachedCount (cache w)); [rewrite Hs|]; reflexivity.
Qed.

(** The estimate answers. *)
Lemma count_fresh_estimated (now : Z) :
  fault (hd calm (pending w)) = None ->
  count_fresh now w =
  (Val (json (CountBody (estimate w) false)),
   with_cache {| cachedCount := Some (estimate w); countCacheTime := now |}
     (advance EvEstimatedCount w)).
Proof.
  intros H. unfold count_fresh, bind, try_catch, date_now,
    estimatedDocumentCount, store_call, set_cache, ret.
  cbv beta. rewrite H. reflexivity.
Qed.

(** The estimate throws and the exact count answers. *)
Lemma count_fresh_exact (now : Z) (m : string) :
  fault (hd calm (pending w)) = Some m ->
  fault (hd calm (tl (pending w))) = None ->
  count_fresh now w =
  (Val (json (CountBody (Z.of_nat (List.length (collection w))) false)),
   with_cache
     {| cachedCount := Some (Z.of_nat (List.length (collection w)));
        countCacheTime := now |}
     (advance EvCountDocuments (advance EvEstimatedCount w))).
Proof.
  intros H1 H2. unfold count_fresh, bind, try_catch, date_now,
    estimatedDocumentCount, countDocuments, store_call, set_cache, ret.
  cbv beta. rewrite H1. simpl. rewrite H2. reflexivity.
Qed.

(** Both count queries throw: the attempt throws the second error. *)
Lemma count_fresh_thrown (now : Z) (m1 m2 : string) :
  fault (hd calm (pending w)) = Some m1 ->
  fault (hd calm (tl (pending w))) = Some m2 ->
  count_fresh now w =
  (Thrown m2, advance EvCountDocuments (advance EvEstimatedCount w)).
Proof.
  intros H1 H2. unfold count_fresh, bind, try_catch, date_now,
    estimatedDocumentCount, countDocuments, store_call, set_cache, ret.
  cbv beta. rewrite H1. simpl. rewrite H2. reflexivity.
Qed.

Variable req : Request.

Lemma batch_try_offline :
  readyState w <> 1 -> batch_try req w = (Val notConnected, w).
Proof.
  intros H. unfold batch_try, bind, get_readyState.
  destruct (Z.eqb_spec (readyState w) 1); [contradiction | reflexivity].
Qed.

Lemma batch_try_answered :
  readyState w = 1 ->
  fault (hd calm (pending w)) = None ->
  batch_try req w =
  (Val (batch_response req (collection w)), advance (batch_event req) w).
Proof.
  intros Hr Hf. unfold batch_try, bind, get_readyState, date_now,
    exec_query, store_call, ret.
  connected Hr. rewrite Hf. reflexivity.
Qed.

Lemma batch_try_thrown (m : string) :
  readyState w = 1 ->
  fault (hd calm (pending w)) = Some m ->
  batch_try req w = (Thrown m, advance (batch_event req) w).
Proof.
  intros Hr Hf. unfold batch_try, bind, get_readyState, date_now,
    exec_query, store_call, ret.
  connected Hr. rewrite Hf. reflexivity.
Qed.

End Attempts.

(** ** The retry loops, unrolled *)

Section Loops.
Import Env Express Server.

(** The count route makes at most three attempts, one second and then two
    seconds apart. *)
Lemma count_handler_unfold (w : World) :
  count_handler w =
  match count_try w with
  | (Val r, w1) => (Val (Sent r), w1)
  | (Thrown _, w1) =>
      match count_try (slept 1000 w1) with
      | (Val r, w2) => (Val (Sent r), w2)
      | (Thrown _, w2) =>
          match count_try (slept 2000 w2) with
          | (Val r, w3) => (Val (Sent r), w3)
          | (Thrown m, w3) => (Val (Sent (countFailed m)), w3)
          end
      end
  end.
Proof.
  unfold count_handler. change (Z.to_nat maxRetries) with 3%nat.
  cbn -[count_try slept].
  unfold try_catch, bind, sleep, ret. cbn -[count_try slept].
  destruct (count_try w) as [[r|m] w1]; [reflexivity|].
  destruct (count_try (slept 1000 w1)) as [[r|m'] w2]; [reflexivity|].
  destruct (count_try (slept 2000 w2)) as [[r|m''] w3]; reflexivity.
Qed.

(** The batch route makes at most three attempts, [waitTime 1] and then
    [waitTime 2] milliseconds apart. *)
Lemma batch_handler_unfold (req : Request) (w : World) :
  batch_handler req w =
  match batch_try req w with
  | (Val r, w1) => (Val (Sent r), w1)
  | (Thrown _, w1) =>
      match batch_try req (slept (waitTime 1) w1) with
      | (Val r, w2) => (Val (Sent r), w2)
      | (Thrown _, w2) =>
          match batch_try req (slept (waitTime 2) w2) with
          | (Val r, w3) => (Val (Sent r), w3)
          | (Thrown m, w3) => (Val (Sent (batchFailed m)), w3)
          end
      end
  end.
Proof.
  unfold batch_handler. change (Z.to_nat maxRetries) with 3%nat.
  cbn -[batch_try slept].
  unfold try_catch, bind, sleep, ret. cbn -[batch_try slept].
  destruct (batch_try req w) as [[r|m] w1]; [reflexivity|].
  destruct (batch_try req (slept 1000 w1)) as [[r|m'] w2]; [reflexivity|].
  destruct (batch_try req (slept 2000 w2)) as [[r|m''] w3]; reflexivity.
Qed.

End Loops.

(** ** Every attempt ends in one of the listed ways *)

Section AttemptSpecs.
Import Env Express Server.

Lemma fresh_true (c : Cache) (now : Z) :
  Spec.fresh c now = true ->
  exists n, cachedCount c = Some n /\ now - countCacheTime c < COUNT_CACHE_TTL.
Proof.
  unfold Spec.fresh. destruct (cachedCount c) as [n|]; [|discriminate].
  intros H. exists n. split; [reflexivity | apply Z.ltb_lt, H].
Qed.

Lemma count_try_spec (w : World) (res : Result Response) (w' : World) :
  count_try w = (res, w') -> Attempt.Count w res w'.
Proof.
  destruct (Z.eq_dec (readyState w) 1) as [Hr|Hr].
  - destruct (Spec.fresh (cache w) (clock w)) eqn:Hf.
    + destruct (fresh_true _ _ Hf) as (n & Hn & Ht).
      rewrite (count_try_cached w n Hr Hn Ht).
      intros E; inversion E; subst. now apply Attempt.CountCached.
    + rewrite (count_try_stale w Hr Hf).
      destruct (fault (hd calm (pending w))) as [m1|] eqn:H1.
      * destruct (fault (hd calm (tl (pending w)))) as [m2|] eqn:H2.
        -- rewrite (count_fresh_thrown w _ m1 m2 H1 H2).
           intros E; inversion E; subst. now apply Attempt.CountThrown with m1.
        -- rewrite (count_fresh_exact w _ m1 H1 H2).
           intros E; inversion E; subst. now apply Attempt.CountExact with m1.
      * rewrite (count_fresh_estimated w _ H1).
        intros E; inversion E; subst. now apply Attempt.CountEstimated.
  - rewrite (count_try_offline w Hr).
    intros E; inversion E; subst. now apply Attempt.CountOffline.
Qed.

Lemma batch_try_spec (req : Request) (w : World)
    (res : Result Response) (w' : World) :
  batch_try req w = (res, w') -> Attempt.Batch req w res w'.
Proof.
  destruct (Z.eq_dec (readyState w) 1) as [Hr|Hr].
  - destruct (fault (hd calm (pending w))) as [m|] eqn:Hf.
    + rewrite (batch_try_thrown w req m Hr Hf).
      intros E; inversion E; subst. now apply Attempt.BatchThrown.
    + rewrite (batch_try_answered w req Hr Hf).
      intros E; inversion E; subst. now apply Attempt.BatchAnswered.
  - rewrite (batch_try_offline w req Hr).
    intros E; inversion E; subst. now apply Attempt.BatchOffline.
Qed.

End AttemptSpecs.

(** ** Bookkeeping on worlds *)

Section Worlds.
Import Env.

Lemma cache_advance (ev : Event) (w : World) : cache (advance ev w) = cache w.
Proof. reflexivity. Qed.

Lemma cache_slept (ms : Z) (w : World) : cache (slept ms w) = cache w.
Proof. reflexivity. Qed.

Lemma collection_advance (ev : Event) (w : World) :
  collection (advance ev w) = collection w.
Proof. reflexivity. Qed.

Lemma collection_slept (ms : Z) (w : World) :
  collection (slept ms w) = collection w.
Proof. reflexivity. Qed.

Lemma log_advance (ev : Event) (w : World) :
  log (advance ev w) = log w ++ [ev].
Proof. reflexivity. Qed.

Lemma log_slept (ms : Z) (w : World) :
  log (slept ms w) = log w ++ [EvSleep ms].
Proof. reflexivity. Qed.

Lemma log_with_cache (c : Cache) (w : World) : log (with_cache c w) = log w.
Proof. reflexivity. Qed.

Lemma clock_advance (ev : Event) (w : World) :
  clock (advance ev w) = clock w + elapsed (hd calm (pending w)).
Proof. reflexivity. Qed.

Lemma clock_slept (ms : Z) (w : World) : clock (slept ms w) = clock w + ms.
Proof. reflexivity. Qed.

Lemma readyState_slept (ms : Z) (w : World) :
  readyState (slept ms w) = readyState w.
Proof. reflexivity. Qed.

Lemma pending_slept (ms : Z) (w : World) : pending (slept ms w) = pending w.
Proof. reflexivity. Qed.

Lemma pending_advance (ev : Event) (w : World) :
  pending (advance ev w) = tl (pending w).
Proof. reflexivity. Qed.

Lemma readyState_advance (ev : Event) (w : World) :
  Spec.staysReady (hd calm (pending w)) ->
  readyState w = 1 ->
  readyState (advance ev w) = 1.
Proof.
  intros [H|H] Hr; unfold advance; simpl; rewrite H; [exact Hr | reflexivity].
Qed.

End Worlds.

Create Rewrite HintDb world.
#[local] Hint Rewrite cache_advance cache_slept collection_advance
  collection_slept log_advance log_slept log_with_cache clock_advance
  clock_slept readyState_slept pending_slept pending_advance : world.

(** Case analysis on the next attempt of the count route. *)
Ltac count_attempt :=
  match goal with
  | |- context [Server.count_try ?x] =>
      let E := fresh "E" in
      destruct (Server.count_try x) as [[?r|?m] ?w] eqn:E;
      apply count_try_spec in E; inversion E; subst; clear E
  end.

(** Case analysis on the next attempt of the batch route. *)
Ltac batch_attempt :=
  match goal with
  | |- context [Server.batch_try ?q ?x] =>
      let E := fresh "E" in
      destruct (Server.batch_try q x) as [[?r|?m] ?w] eqn:E;
      apply batch_try_spec in E; inversion E; subst; clear E
  end.

(** ** The claims *)

Section Claims.
Import Env Express Server.

(** Every count request is answered. *)
Lemma count_handler_responds (w : World) :
  exists r w', count_handler w = (Val (Sent r), w').
Proof.
  rewrite count_handler_unfold.
  repeat count_attempt; eauto.
Qed.


(** C4: a count or batch request that finds the connection not ready is
    answered with 503 and an error body at once: the world is left as it
    was, so no store operation and no timer took place. *)
Theorem not_ready_503_at_once (req : Request) (w : World) :
  readyState w <> 1 ->
  count_handler w = (Val (Sent notConnected), w) /\
  batch_handler req w = (Val (Sent notConnected), w) /\
  status notConnected = 503 /\
  body notConnected = ErrorBody "Database not connected" None None.
Proof.
  intros Hr. repeat split.
  - rewrite count_handler_unfold, (count_try_offline w Hr). reflexivity.
  - rewrite batch_handler_unfold, (batch_try_offline w req Hr). reflexivity.
Qed.

Lemma not_ready_503_at_once_witness :
  count_handler (Sample.offline Sample.threeDocs)
  = (Val (Sent notConnected), Sample.offline Sample.threeDocs) /\
  batch_handler Sample.noParams (Sample.offline Sample.threeDocs)
  = (Val (Sent notConnected), Sample.offline Sample.threeDocs) /\
  status notConnected = 503 /\
  body notConnected = ErrorBody "Database not connected" None None.
Proof.
  apply (not_ready_503_at_once Sample.noParams
           (Sample.offline Sample.threeDocs)).
  simpl. lia.
Defined.

(** C9: the two cache variables are written only by an attempt whose
    count query succeeds. An attempt that throws leaves them as they were,
    and so does every request answered with an error (503 or 500); when a
    request changes them, it answers with the fresh count it stored. *)
Theorem cache_written_only_on_fresh_count (w : World) :
  (forall m w', count_try w = (Thrown m, w') -> cache w' = cache w) /\
  (forall r w',
     count_handler w = (Val (Sent r), w') ->
     status r <> 200 -> cache w' = cache w) /\
  (forall res w',
     count_handler w = (res, w') ->
     cache w' <> cache w ->
     exists c now,
       res = Val (Sent (json (CountBody c false))) /\
       cache w' = {| cachedCount := Some c; countCacheTime := now |}).
Proof.
  split; [|split].
  - intros m w' E. apply count_try_spec in E. inversion E; subst.
    reflexivity.
  - intros r0 w'. rewrite count_handler_unfold.
    repeat count_attempt; intros E; inversion E; subst; clear E;
      simpl; intros Hs; try reflexivity; exfalso; apply Hs; reflexivity.
  - intros res w'. rewrite count_handler_unfold.
    repeat count_attempt; intros E; inversion E; subst; clear E;
      simpl; intros Hc; try (exfalso; apply Hc; reflexivity);
      eexists; eexists; split; reflexivity.
Qed.

(** A cached count that is not fresh does not become fresh later. *)
Lemma stale_later (c : Cache) (now later : Z) :
  Spec.fresh c now = false -> now <= later -> Spec.fresh c later = false.
Proof.
  unfold Spec.fresh. destruct (cachedCount c); [|reflexivity].
  intros H Hle. apply Z.ltb_ge in H. apply Z.ltb_ge. lia.
Qed.

Lemma fails_fault (o : Outcome) : Spec.fails o -> exists m, fault o = Some m.
Proof.
  unfold Spec.fails. destruct (fault o) as [m|]; [eauto | congruence].
Qed.

(** An attempt of the count route on a stale cache whose two count queries
    throw. *)
Lemma count_try_fails (w : World) (o1 o2 : Outcome) (rest : list Outcome)
    (m : string) :
  readyState w = 1 ->
  Spec.fresh (cache w) (clock w) = false ->
  pending w = o1 :: o2 :: rest ->
  Spec.fails o1 -> fault o2 = Some m ->
  count_try w =
  (Thrown m, advance EvCountDocuments (advance EvEstimatedCount w)).
Proof.
  intros Hr Hs Hp H1 H2. destruct (fails_fault o1 H1) as [m1 Hm1].
  rewrite (count_try_stale w Hr Hs).
  apply count_fresh_thrown with m1; rewrite Hp; assumption.
Qed.

(** The state after such an attempt and the timer that follows it. *)
Lemma after_failed_count (w : World) (o1 o2 : Outcome) (rest : list Outcome)
    (ms : Z) :
  readyState w = 1 ->
  Spec.fresh (cache w) (clock w) = false ->
  pending w = o1 :: o2 :: rest ->
  Spec.staysReady o1 -> Spec.staysReady o2 ->
  0 <= elapsed o1 -> 0 <= elapsed o2 -> 0 <= ms ->
  let w' := slept ms (advance EvCountDocuments (advance EvEstimatedCount w)) in
  readyState w' = 1 /\
  Spec.fresh (cache w') (clock w') = false /\
  pending w' = rest /\
  cache w' = cache w /\
  log w' = log w ++ [EvEstimatedCount; EvCountDocuments; EvSleep ms].
Proof.
  intros Hr Hs Hp R1 R2 E1 E2 Hms w'. subst w'.
  autorewrite with world. rewrite Hp. simpl tl. simpl hd.
  repeat split.
  - apply readyState_advance; [rewrite pending_advance, Hp; exact R2|].
    apply readyState_advance; [rewrite Hp; exact R1 | exact Hr].
  - apply stale_later with (clock w); [exact Hs | lia].
  - rewrite <- !app_assoc. reflexivity.
Qed.

(** C6: a count request runs its two count queries at most three times,
    with timers of 1000 ms times the attempt number in between; when both
    queries throw in each of the three attempts, the response is a 500
    whose body carries the message of the last error, and the cache is
    untouched. *)
Theorem count_retries_linear_backoff (w : World) :
  (forall res w',
     count_handler w = (res, w') ->
     exists evs k,
       log w' = log w ++ evs /\
       (Spec.storeOps evs <= 2 * 3)%nat /\
       Spec.sleeps evs = firstn k [1000 * 1; 1000 * 2]) /\
  (forall o1 o2 o3 o4 o5 o6 rest m,
     readyState w = 1 ->
     Spec.fresh (cache w) (clock w) = false ->
     pending w = o1 :: o2 :: o3 :: o4 :: o5 :: o6 :: rest ->
     Spec.fails o1 -> Spec.fails o2 -> Spec.fails o3 -> Spec.fails o4 ->
     Spec.fails o5 -> fault o6 = Some m ->
     Spec.staysReady o1 -> Spec.staysReady o2 ->
     Spec.staysReady o3 -> Spec.staysReady o4 ->
     0 <= elapsed o1 -> 0 <= elapsed o2 ->
     0 <= elapsed o3 -> 0 <= elapsed o4 ->
     exists w',
       count_handler w =
       (Val (Sent (status_json 500
                     (ErrorBody "Failed to count features" (Some m) None))),
        w') /\
       log w' =
       log w ++ [EvEstimatedCount; EvCountDocuments; EvSleep (1000 * 1);
                 EvEstimatedCount; EvCountDocuments; EvSleep (1000 * 2);
                 EvEstimatedCount; EvCountDocuments] /\
       cache w' = cache w).
Proof.
  split.
  - intros res w'. rewrite count_handler_unfold.
    repeat count_attempt; intros E; inversion E; subst; clear E;
      autorewrite with world; rewrite <- ?app_assoc;
      eexists; first
        [ exists 0%nat; split; [symmetry; apply app_nil_r|];
          split; [unfold Spec.storeOps; simpl; lia | reflexivity]
        | exists 0%nat; split; [reflexivity|];
          split; [unfold Spec.storeOps; simpl; lia | reflexivity]
        | exists 1%nat; split; [reflexivity|];
          split; [unfold Spec.storeOps; simpl; lia | reflexivity]
        | exists 2%nat; split; [reflexivity|];
          split; [unfold Spec.storeOps; simpl; lia | reflexivity] ].
  - intros o1 o2 o3 o4 o5 o6 rest m Hr Hs Hp F1 F2 F3 F4 F5 F6
      R1 R2 R3 R4 T1 T2 T3 T4.
    destruct (fails_fault o2 F2) as [m2 Hm2].
    destruct (fails_fault o4 F4) as [m4 Hm4].
    rewrite count_handler_unfold.
    rewrite (count_try_fails w o1 o2 _ m2 Hr Hs Hp F1 Hm2).
    destruct (after_failed_count w o1 o2 _ 1000 Hr Hs Hp R1 R2 T1 T2)
      as (Hr1 & Hs1 & Hp1 & Hc1 & Hl1); [lia|].
    rewrite (count_try_fails _ o3 o4 _ m4 Hr1 Hs1 Hp1 F3 Hm4).
    destruct (after_failed_count _ o3 o4 _ 2000 Hr1 Hs1 Hp1 R3 R4 T3 T4)
      as (Hr2 & Hs2 & Hp2 & Hc2 & Hl2); [lia|].
    rewrite (count_try_fails _ o5 o6 _ m Hr2 Hs2 Hp2 F5 F6).
    eexists. split; [reflexivity|]. split.
    + rewrite !log_advance, Hl2, Hl1. rewrite <- !app_assoc. reflexivity.
    + rewrite !cache_advance, Hc2, Hc1. reflexivity.
Qed.

(** The state after a batch attempt whose query throws and the timer that
    follows it. *)
Lemma after_failed_batch (req : Request) (w : World) (o : Outcome)
    (rest : list Outcome) (ms : Z) :
  readyState w = 1 ->
  pending w = o :: rest ->
  Spec.staysReady o ->
  let w' := slept ms (advance (batch_event req) w) in
  readyState w' = 1 /\
  pending w' = rest /\
  collection w' = collection w /\
  log w' = log w ++ [batch_event req; EvSleep ms].
Proof.
  intros Hr Hp R w'. subst w'. autorewrite with world. rewrite Hp.
  repeat split.
  - apply readyState_advance; [rewrite Hp; exact R | exact Hr].
  - rewrite <- app_assoc. reflexivity.
Qed.

(** The mapping of the route is the one the contract asks for. *)
Lemma toFeature_expected (d : Doc.t) : toFeature d = Expected.feature d.
Proof. reflexivity. Qed.

(** The response of a successful attempt, in the contract's terms. *)
Lemma batch_response_expected (req : Request) (coll : list Doc.t) :
  batch_response req coll =
  let records :=
    Store.exec coll (Expected.query (batch_page req) (batch_limit req)) in
  {| status := 200;
     body :=
       BatchBody (map Expected.feature records)
         (batch_page req) (batch_limit req)
         (Z.of_nat (List.length records) =? batch_limit req)
         (Z.of_nat (List.length records)) |}.
Proof.
  unfold batch_response, json. cbv zeta. rewrite length_map.
  reflexivity.
Qed.

(** C5: a batch request queries the store at most three times, with
    timers of [min(1000 * 2^(attempt-1), 5000)] ms in between, that is
    1000 ms and then 2000 ms; when the query throws in all three attempts
    the response is a 500 with the last error's message and [attempts: 3];
    when an attempt within the budget is answered, the response is the
    200 of the contract: the features of the records that the query
    sorted by [_id], with skip [page * limit] and the limit, returned,
    with [page], [limit], [hasMore] and [count]; every store operation of
    the request was that query. *)
Theorem batch_retries_exponential_backoff (req : Request) (w : World) :
  (forall attempt,
     waitTime attempt = Z.min (1000 * 2 ^ (attempt - 1)) 5000 /\
     waitTime attempt <= 5000) /\
  waitTime 1 = 1000 /\ waitTime 2 = 2000 /\
  (forall res w',
     batch_handler req w = (res, w') ->
     exists evs k,
       log w' = log w ++ evs /\
       (Spec.storeOps evs <= 3)%nat /\
       Spec.sleeps evs = firstn k [waitTime 1; waitTime 2]) /\
  (forall o1 o2 o3 rest m,
     readyState w = 1 ->
     pending w = o1 :: o2 :: o3 :: rest ->
     Spec.fails o1 -> Spec.fails o2 -> fault o3 = Some m ->
     Spec.staysReady o1 -> Spec.staysReady o2 ->
     exists w',
       batch_handler req w =
       (Val (Sent (status_json 500
                     (ErrorBody "Failed to fetch batch after retries"
                        (Some m) (Some 3)))),
        w') /\
       log w' =
       log w ++ [batch_event req; EvSleep (waitTime 1);
                 batch_event req; EvSleep (waitTime 2);
                 batch_event req]) /\
  (forall failed ok rest,
     readyState w = 1 ->
     pending w = failed ++ ok :: rest ->
     (List.length failed < 3)%nat ->
     Forall (fun o => Spec.fails o /\ Spec.staysReady o) failed ->
     fault ok = None ->
     let page := batch_page req in
     let limit := batch_limit req in
     JS.safe page -> JS.safe limit -> JS.safe (page * limit) ->
     exists w' evs records,
       batch_handler req w =
       (Val (Sent {| status := 200;
                     body :=
                       BatchBody (map Expected.feature records) page limit
                         (Z.of_nat (List.length records) =? limit)
                         (Z.of_nat (List.length records)) |}), w') /\
       records = Store.exec (collection w) (Expected.query page limit) /\
       (0 <= page -> 0 < limit ->
        records = Expected.records (collection w) page limit) /\
       log w' = log w ++ evs /\
       Spec.storeOps evs = S (List.length failed) /\
       Spec.sleeps evs =
         firstn (List.length failed) [waitTime 1; waitTime 2] /\
       Forall (fun e => e = EvFind (Expected.query page limit) \/
                        exists ms, e = EvSleep ms) evs).
Proof.
  split; [|split; [|split; [|split; [|split]]]].
  - intros attempt. unfold waitTime. split; [reflexivity | lia].
  - reflexivity.
  - reflexivity.
  - intros res w'. rewrite batch_handler_unfold.
    repeat batch_attempt; intros E; inversion E; subst; clear E;
      autorewrite with world; rewrite <- ?app_assoc;
      eexists; first
        [ exists 0%nat; split; [symmetry; apply app_nil_r|];
          split; [unfold Spec.storeOps; simpl; lia | reflexivity]
        | exists 0%nat; split; [reflexivity|];
          split; [unfold Spec.storeOps; simpl; lia | reflexivity]
        | exists 1%nat; split; [reflexivity|];
          split; [unfold Spec.storeOps; simpl; lia | reflexivity]
        | exists 2%nat; split; [reflexivity|];
          split; [unfold Spec.storeOps; simpl; lia | reflexivity] ].
  - intros o1 o2 o3 rest m Hr Hp F1 F2 F3 R1 R2.
    destruct (fails_fault o1 F1) as [m1 Hm1].
    destruct (fails_fault o2 F2) as [m2 Hm2].
    rewrite batch_handler_unfold.
    rewrite (batch_try_thrown w req m1 Hr) by (rewrite Hp; exact Hm1).
    destruct (after_failed_batch req w o1 _ (waitTime 1) Hr Hp R1)
      as (Hr1 & Hp1 & _ & Hl1).
    rewrite (batch_try_thrown _ req m2 Hr1) by (rewrite Hp1; exact Hm2).
    destruct (after_failed_batch req _ o2 _ (waitTime 2) Hr1 Hp1 R2)
      as (Hr2 & Hp2 & _ & Hl2).
    rewrite (batch_try_thrown _ req m Hr2) by (rewrite Hp2; exact F3).
    eexists. split; [reflexivity|].
    rewrite log_advance, Hl2, Hl1. rewrite <- !app_assoc. reflexivity.
  - intros failed ok rest Hr Hp Hlen Hall Hok page limit _ _ _.
    assert (Hev : batch_event req = EvFind (Expected.query page limit))
      by reflexivity.
    assert (Hold : exists w' evs,
      batch_handler req w =
        (Val (Sent (batch_response req (collection w))), w') /\
      log w' = log w ++ evs /\
      Spec.storeOps evs = S (List.length failed) /\
      Spec.sleeps evs =
        firstn (List.length failed) [waitTime 1; waitTime 2] /\
      Forall (fun e => e = EvFind (Expected.query page limit) \/
                       exists ms, e = EvSleep ms) evs).
    { rewrite batch_handler_unfold.
      destruct failed as [|o1 failed].
      { rewrite (batch_try_answered w req Hr) by (rewrite Hp; exact Hok).
        eexists; exists [batch_event req].
        split; [reflexivity|]. split; [reflexivity|].
        split; [reflexivity|]. split; [reflexivity|].
        rewrite Hev. repeat (apply Forall_cons;
                  [first [left; reflexivity
                         | right; eexists; reflexivity]|]);
          apply Forall_nil. }
      inversion Hall as [|? ? [F1 R1] Hall1]; subst.
      destruct (fails_fault o1 F1) as [m1 Hm1].
      rewrite (batch_try_thrown w req m1 Hr) by (rewrite Hp; exact Hm1).
      destruct (after_failed_batch req w o1 _ (waitTime 1) Hr Hp R1)
        as (Hr1 & Hp1 & Hc1 & Hl1).
      destruct failed as [|o2 failed].
      { rewrite (batch_try_answered _ req Hr1) by (rewrite Hp1; exact Hok).
        rewrite Hc1.
        eexists;
          exists [batch_event req; EvSleep (waitTime 1); batch_event req].
        split; [reflexivity|]. split.
        { rewrite log_advance, Hl1, <- app_assoc. reflexivity. }
        split; [reflexivity|]. split; [reflexivity|].
        rewrite Hev. repeat (apply Forall_cons;
                  [first [left; reflexivity
                         | right; eexists; reflexivity]|]);
          apply Forall_nil. }
      inversion Hall1 as [|? ? [F2 R2] Hall2]; subst.
      destruct (fails_fault o2 F2) as [m2 Hm2].
      rewrite (batch_try_thrown _ req m2 Hr1) by (rewrite Hp1; exact Hm2).
      destruct (after_failed_batch req _ o2 _ (waitTime 2) Hr1 Hp1 R2)
        as (Hr2 & Hp2 & Hc2 & Hl2).
      destruct failed as [|o3 failed]; [|simpl in Hlen; lia].
      rewrite (batch_try_answered _ req Hr2) by (rewrite Hp2; exact Hok).
      rewrite Hc2, Hc1.
      eexists; exists [batch_event req; EvSleep (waitTime 1);
                       batch_event req; EvSleep (waitTime 2);
                       batch_event req].
      split; [reflexivity|]. split.
      { rewrite log_advance, Hl2, Hl1, <- !app_assoc. reflexivity. }
      split; [reflexivity|]. split; [reflexivity|].
      rewrite Hev. repeat (apply Forall_cons;
                  [first [left; reflexivity
                         | right; eexists; reflexivity]|]);
          apply Forall_nil. }
    destruct Hold as (w' & evs & E & Hl & Hn & Hsl & Hfa).
    exists w', evs, (Store.exec (collection w) (Expected.query page limit)).
    rewrite E, batch_response_expected.
    split; [reflexivity|]. split; [reflexivity|].
    split; [intros _ _; reflexivity | auto].
Qed.

(** A batch request answered with status 200 was answered by a successful
    attempt, on the collection as it was when the request came in. *)
Lemma batch_handler_success (req : Request) (w : World)
    (r : Response) (w' : World) :
  batch_handler req w = (Val (Sent r), w') ->
  status r = 200 ->
  r = batch_response req (collection w) /\
  In (batch_event req) (log w').
Proof.
  rewrite batch_handler_unfold.
  repeat batch_attempt; intros E; inversion E; subst; clear E;
    simpl status; intros Hs; try discriminate;
    autorewrite with world; (split; [reflexivity|]);
    apply in_or_app; right; left; reflexivity.
Qed.

(** A batch request that finds the connection ready and whose query the
    store answers succeeds at the first attempt. *)
Lemma batch_handler_first_try (req : Request) (w : World) :
  readyState w = 1 ->
  fault (hd calm (pending w)) = None ->
  batch_handler req w =
  (Val (Sent (batch_response req (collection w))),
   advance (batch_event req) w).
Proof.
  intros Hr Hf.
  rewrite batch_handler_unfold, (batch_try_answered w req Hr Hf).
  reflexivity.
Qed.

(** C2: in every successful response to a batch request with page >= 0
    and limit > 0, [hasMore] is true exactly when the number of records
    the store returned for the page equals [limit], and [count] is the
    number of features in the response. *)
Theorem hasMore_iff_full_page (req : Request) (w : World)
    (r : Response) (w' : World) :
  0 <= batch_page req ->
  0 < batch_limit req ->
  batch_handler req w = (Val (Sent r), w') ->
  status r = 200 ->
  exists records hasMore count,
    records =
      Store.exec (collection w)
        (batch_query (batch_page req * batch_limit req) (batch_limit req)) /\
    body r =
      BatchBody (map toFeature records) (batch_page req) (batch_limit req)
        hasMore count /\
    (hasMore = true <-> Z.of_nat (List.length records) = batch_limit req) /\
    count = Z.of_nat (List.length (map toFeature records)).
Proof.
  intros _ _ E Hs. destruct (batch_handler_success req w r w' E Hs) as [-> _].
  eexists; eexists; eexists. split; [reflexivity|].
  split; [reflexivity|]. split; [apply Z.eqb_eq | reflexivity].
Qed.

Lemma hasMore_iff_full_page_witness :
  exists records hasMore count,
    records = [Sample.bare 1; Sample.full 2] /\
    body (batch_response (Sample.request JS.QUndefined (JS.QStr "2"))
            Sample.threeDocs) =
      BatchBody (map toFeature records) 0 2 hasMore count /\
    (hasMore = true <-> Z.of_nat (List.length records) = 2) /\
    count = Z.of_nat (List.length (map toFeature records)).
Proof.
  apply (hasMore_iff_full_page
           (Sample.request JS.QUndefined (JS.QStr "2"))
           (Sample.world Sample.threeDocs [])
           (batch_response (Sample.request JS.QUndefined (JS.QStr "2"))
              Sample.threeDocs)
           (advance (batch_event (Sample.request JS.QUndefined (JS.QStr "2")))
              (Sample.world Sample.threeDocs []))).
  - vm_compute. discriminate.
  - reflexivity.
  - reflexivity.
  - reflexivity.
Defined.

(** C10: a [limit] that parses to 0 is replaced by 500: a successful
    response carries [limit: 500] and 500 features at most, which for
    page >= 0 are the first 500 records at most after the skipped ones,
    not an empty page; a [page] that parses to 0 gives page 0, as the
    default does. *)
Theorem zero_limit_is_default (req : Request) (w : World) :
  JS.parseInt (JS.ToString (query_limit req)) = JS.Num 0 ->
  batch_limit req = 500 /\
  (forall r w',
     batch_handler req w = (Val (Sent r), w') ->
     status r = 200 ->
     exists features hasMore count,
       body r = BatchBody features (batch_page req) 500 hasMore count /\
       (List.length features <= 500)%nat /\
       (0 <= batch_page req ->
        features =
          map toFeature
            (firstn 500
               (skipn (Z.to_nat (batch_page req * 500))
                  (Store.sortById (collection w)))))) /\
  (JS.parseInt (JS.ToString (query_page req)) = JS.Num 0 ->
   batch_page req = 0).
Proof.
  intros H0.
  assert (Hl : batch_limit req = 500) by (unfold batch_limit; now rewrite H0).
  split; [exact Hl|]. split.
  - intros r w' E Hs.
    destruct (batch_handler_success req w r w' E Hs) as [-> _].
    unfold batch_response. rewrite Hl, exec_batch_query.
    eexists; eexists; eexists. split; [reflexivity|]. split.
    + rewrite length_map. apply firstn_le_length.
    + intros _. reflexivity.
  - intros Hp. unfold batch_page. now rewrite Hp.
Qed.

Lemma zero_limit_is_default_witness :
  batch_limit (Sample.request (JS.QStr "0") (JS.QStr "0")) = 500 /\
  fst (batch_handler (Sample.request (JS.QStr "0") (JS.QStr "0"))
         (Sample.world Sample.threeDocs [])) =
  Val (Sent (json (BatchBody
                     (map toFeature
                        [Sample.bare 1; Sample.full 2; Sample.full 3])
                     0 500 false 3))).
Proof.
  split.
  - apply (zero_limit_is_default
             (Sample.request (JS.QStr "0") (JS.QStr "0"))
             (Sample.world Sample.threeDocs [])).
    reflexivity.
  - reflexivity.
Defined.






(** What [toFeature] does with a field that is there and with one that is
    missing. *)
Lemma toFeature_fields (d : Doc.t) :
  GeoJSON.type (toFeature d) = "Feature" /\
  GeoJSON._id (toFeature d) = Doc._id d /\
  (Doc.geometry d = JS.Undefined ->
   GeoJSON.geometry (toFeature d) = defaultGeometry) /\
  (Doc.properties d = JS.Undefined ->
   GeoJSON.properties (toFeature d) = JS.VObj []) /\
  (Doc.file d = JS.Undefined ->
   GeoJSON.file (toFeature d) = JS.VStr "default") /\
  (JS.truthy (Doc.geometry d) = true ->
   GeoJSON.geometry (toFeature d) = Doc.geometry d) /\
  (JS.truthy (Doc.properties d) = true ->
   GeoJSON.properties (toFeature d) = Doc.properties d) /\
  (JS.truthy (Doc.file d) = true ->
   GeoJSON.file (toFeature d) = Doc.file d).
Proof.
  unfold toFeature, JS.or; simpl.
  repeat split; intros H; rewrite H; reflexivity.
Qed.

(** C1, the claim as stated fails: the limit value "10px" is malformed,
    and the route reads it as limit 10, not as the default 500. *)
Lemma malformed_limit_prefix_is_used :
  Spec.malformed (JS.QStr "10px") /\
  batch_limit (Sample.request JS.QUndefined (JS.QStr "10px")) = 10 /\
  batch_limit (Sample.request JS.QUndefined (JS.QStr "10px")) <> 500 /\
  fst (batch_handler (Sample.request JS.QUndefined (JS.QStr "10px"))
         (Sample.world Sample.threeDocs [])) =
  Val (Sent (json (BatchBody
                     (map toFeature
                        [Sample.bare 1; Sample.full 2; Sample.full 3])
                     0 10 false 3))).
Proof.
  repeat split; try reflexivity. vm_compute. discriminate.
Qed.

(** C1, amended: [page] is 0 and [limit] is 500 when the parameter is
    absent or [parseInt] finds no integer in it; a value, malformed or
    not, from which [parseInt] reads an integer other than 0 is used as
    that integer. A batch request that finds the connection ready and
    whose query is answered gets a 200. For [page], [limit] and
    [page * limit] of magnitude up to 2^53 - 1, a 200 response comes from
    one query for the documents in ascending [_id] order with
    [skip = page * limit] and [limit], and carries the image under
    [toFeature] of the records returned, which for page >= 0 and
    limit > 0 are the sorted collection minus the first [skip] records,
    cut after [limit] records; [toFeature] is the mapping to a GeoJSON
    feature of the contract and puts the default point, the empty object
    and "default" in place of a missing geometry, properties and file. *)
Theorem batch_contract (req : Request) (w : World) :
  (Spec.absent (query_page req) \/
   JS.parseInt (JS.ToString (query_page req)) = JS.NaN ->
   batch_page req = 0) /\
  (Spec.absent (query_limit req) \/
   JS.parseInt (JS.ToString (query_limit req)) = JS.NaN ->
   batch_limit req = 500) /\
  (forall n,
     n <> 0 -> JS.safe n ->
     (JS.parseInt (JS.ToString (query_page req)) = JS.Num n ->
      batch_page req = n) /\
     (JS.parseInt (JS.ToString (query_limit req)) = JS.Num n ->
      batch_limit req = n)) /\
  (readyState w = 1 ->
   fault (hd calm (pending w)) = None ->
   exists r w',
     batch_handler req w = (Val (Sent r), w') /\ status r = 200) /\
  (forall r w',
     batch_handler req w = (Val (Sent r), w') ->
     status r = 200 ->
     let page := batch_page req in
     let limit := batch_limit req in
     let skip := page * limit in
     let query :=
       {| Query.q_sort := true; Query.q_skip := Some skip;
          Query.q_limit := Some limit; Query.q_maxTimeMS := Some 50000 |} in
     JS.safe page -> JS.safe limit -> JS.safe skip ->
     exists records,
       In (EvFind query) (log w') /\
       records = Store.exec (collection w) query /\
       body r =
         BatchBody (map toFeature records) page limit
           (Z.of_nat (List.length records) =? limit)
           (Z.of_nat (List.length records)) /\
       (0 <= page -> 0 < limit ->
        records =
          firstn (Z.to_nat limit)
            (skipn (Z.to_nat skip) (Store.sortById (collection w))) /\
        Spec.ascendingById (Store.sortById (collection w)) /\
        Permutation (Store.sortById (collection w)) (collection w) /\
        Z.of_nat (List.length records) <= limit) /\
       (collection w = [] ->
        body r = BatchBody [] page limit false 0)) /\
  (forall d,
     toFeature d = Expected.feature d /\
     (Doc.geometry d = JS.Undefined ->
      GeoJSON.geometry (toFeature d) =
      JS.VObj [("type", JS.VStr "Point");
               ("coordinates", JS.VArr [JS.VNum 0; JS.VNum 0])]) /\
     (Doc.properties d = JS.Undefined ->
      GeoJSON.properties (toFeature d) = JS.VObj []) /\
     (Doc.file d = JS.Undefined ->
      GeoJSON.file (toFeature d) = JS.VStr "default")).
Proof.
  split; [|split; [|split; [|split; [|split]]]].
  - unfold batch_page, Spec.absent. intros [H|H]; rewrite H; reflexivity.
  - unfold batch_limit, Spec.absent. intros [H|H]; rewrite H; reflexivity.
  - intros n Hn _. unfold batch_page, batch_limit.
    split; intros H; rewrite H; simpl;
      destruct (Z.eqb_spec n 0); [contradiction | reflexivity
                                 | contradiction | reflexivity].
  - intros Hr Hf. rewrite (batch_handler_first_try req w Hr Hf).
    eexists; eexists. split; reflexivity.
  - intros r w' E Hs page limit skip query _ _ _.
    destruct (batch_handler_success req w r w' E Hs) as [-> Hin].
    exists (Store.exec (collection w) query).
    split; [exact Hin|]. split; [reflexivity|]. split.
    + unfold batch_response. rewrite length_map. reflexivity.
    + split.
      * intros Hp Hl. split; [reflexivity|].
        split; [apply sortById_sorted|]. split; [apply sortById_perm|].
        apply (exec_batch_query_length (collection w) skip limit Hl).
      * intros Hc. unfold batch_response. rewrite Hc.
        change (Store.exec [] _) with (firstn (Z.to_nat (batch_limit req))
          (skipn (Z.to_nat (batch_page req * batch_limit req))
             (@nil Doc.t))).
        rewrite skipn_nil, firstn_nil. simpl.
        assert (Hne : batch_limit req <> 0).
        { unfold batch_limit, JS.or_num.
          destruct (JS.parseInt (JS.ToString (query_limit req))) as [|z];
            [discriminate|].
          destruct (Z.eqb_spec z 0); [discriminate | assumption]. }
        unfold page, limit.
        destruct (batch_limit req); [congruence | reflexivity | reflexivity].
  - intros d. destruct (toFeature_fields d) as (_ & _ & Hg & Hp & Hf & _).
    split; [apply toFeature_expected|]. auto.
Qed.

Lemma batch_contract_witness :
  batch_page Sample.noParams = 0 /\
  batch_limit Sample.noParams = 500 /\
  batch_limit (Sample.request JS.QUndefined (JS.QStr "10px")) = 10 /\
  (exists r w',
     batch_handler Sample.noParams (Sample.world Sample.threeDocs []) =
     (Val (Sent r), w') /\ status r = 200) /\
  (let req := Sample.request (JS.QStr "0") (JS.QStr "2") in
   let w := Sample.world Sample.threeDocs [] in
   exists records,
     records = [Sample.bare 1; Sample.full 2] /\
     body (batch_response req (collection w)) =
     BatchBody (map toFeature records) 0 2 true 2).
Proof.
  pose proof (batch_contract Sample.noParams
                (Sample.world Sample.threeDocs []))
    as (H1 & H2 & _ & H3 & _).
  pose proof (batch_contract (Sample.request JS.QUndefined (JS.QStr "10px"))
                (Sample.world Sample.threeDocs []))
    as (_ & _ & H4 & _).
  split; [apply H1; left; reflexivity|].
  split; [apply H2; left; reflexivity|].
  split.
  { apply (H4 10); [lia | | reflexivity].
    unfold JS.safe, JS.MAX_SAFE_INTEGER. vm_compute. discriminate. }
  split; [apply H3; reflexivity|].
  intros req w.
  pose proof (batch_contract req w) as (_ & _ & _ & _ & H5 & _).
  destruct (H5 (batch_response req (collection w))
              (snd (batch_handler req w)) eq_refl eq_refl)
    as (records & _ & Hrec & Hbody & Hsorted & _);
    try (unfold JS.safe, JS.MAX_SAFE_INTEGER; vm_compute; discriminate).
  destruct Hsorted as (Hrecords & _); [reflexivity | reflexivity |].
  exists records. split; [rewrite Hrecords; reflexivity|].
  rewrite Hbody, Hrecords. reflexivity.
Defined.

(** Pushing the feature of each document in turn gives the image of the
    list under [toFeature]. *)
Lemma push_features (docs : list Doc.t) (acc : list GeoJSON.t) :
  fold_left (fun acc doc => acc ++ [toFeature doc]) docs acc =
  acc ++ map toFeature docs.
Proof.
  revert acc. induction docs as [|d rest IH]; intros acc; simpl.
  - symmetry. apply app_nil_r.
  - rewrite IH, <- app_assoc. reflexivity.
Qed.

Lemma features_handler_offline (w : World) :
  readyState w <> 1 -> features_handler w = (Val (Sent notConnected), w).
Proof.
  intros H. unfold features_handler, try_catch, bind, get_readyState.
  destruct (Z.eqb_spec (readyState w) 1); [contradiction | reflexivity].
Qed.

(** With the connection ready the call of [maxTimeMS] on the cursor
    throws, and the [catch] block answers. *)
Lemma features_handler_ready (w : World) :
  readyState w = 1 ->
  features_handler w =
  (Val (Sent (featuresFailed QueryCursor.noMaxTimeMS)), w).
Proof.
  intros Hr. unfold features_handler, try_catch, bind, get_readyState,
    QueryCursor.maxTimeMS, throw, ret.
  connected Hr. reflexivity.
Qed.

(** C8: the legacy route never returns the collection. With the
    connection ready, [maxTimeMS] is called on the QueryCursor that
    [cursor()] returned, which has no such method: the TypeError is
    caught and every such request is answered 500 with its message,
    before any document is read. With the connection not ready the guard
    answers 503. Either way the world is as it was: no store operation,
    no timer, no retry. *)
Theorem legacy_never_succeeds (w : World) :
  (readyState w = 1 ->
   features_handler w =
   (Val (Sent (status_json 500
                 (ErrorBody "Failed to fetch features"
                    (Some QueryCursor.noMaxTimeMS) None))), w)) /\
  (readyState w <> 1 ->
   features_handler w =
   (Val (Sent (status_json 503
                 (ErrorBody "Database not connected" None None))), w)) /\
  (forall res w',
     features_handler w = (res, w') ->
     w' = w /\
     forall type features,
       res <> Val (Sent (json (CollectionBody type features)))).
Proof.
  split; [|split].
  - apply features_handler_ready.
  - apply features_handler_offline.
  - intros res w'.
    destruct (Z.eq_dec (readyState w) 1) as [Hr|Hr].
    + rewrite (features_handler_ready w Hr).
      intros E; inversion E; subst. split; [reflexivity | discriminate].
    + rewrite (features_handler_offline w Hr).
      intros E; inversion E; subst. split; [reflexivity | discriminate].
Qed.

Lemma legacy_never_succeeds_witness :
  features_handler (Sample.world Sample.threeDocs []) =
  (Val (Sent (status_json 500
                (ErrorBody "Failed to fetch features"
                   (Some QueryCursor.noMaxTimeMS) None))),
   Sample.world Sample.threeDocs []) /\
  features_handler (Sample.offline Sample.threeDocs) =
  (Val (Sent (status_json 503
                (ErrorBody "Database not connected" None None))),
   Sample.offline Sample.threeDocs).
Proof.
  split.
  - apply (proj1 (legacy_never_succeeds (Sample.world Sample.threeDocs []))).
    reflexivity.
  - apply (proj1 (proj2 (legacy_never_succeeds
                           (Sample.offline Sample.threeDocs)))).
    simpl. lia.
Defined.

(** Store operations that take no negative time. *)
Lemma elapsed_hd (l : list Outcome) :
  Forall (fun o => 0 <= elapsed o) l ->
  0 <= elapsed (hd calm l) /\ Forall (fun o => 0 <= elapsed o) (tl l).
Proof.
  intros H. destruct H as [|o rest Ho Hrest]; simpl.
  - split; [lia | constructor].
  - split; assumption.
Qed.

(** A cache that is not fresh holds no count or one that is 30 s old. *)
Lemma stale_not_cached (c : Cache) (now later n : Z) :
  Spec.fresh c now = false ->
  now <= later ->
  cachedCount c = Some n ->
  later - countCacheTime c < COUNT_CACHE_TTL ->
  False.
Proof.
  intros Hs Hle Hn Hlt. pose proof (stale_later c now later Hs Hle) as H.
  unfold Spec.fresh in H. rewrite Hn in H. apply Z.ltb_ge in H. lia.
Qed.

(** The count route among other requests, unrolled. *)
Lemma interleaved_count_unfold (others : list (option Cache)) (w : World) :
  Interleaved.count_handler others w =
  match count_try w with
  | (Val r, w1) => (Val (Sent r), w1)
  | (Thrown _, w1) =>
      match count_try
              (Interleaved.landed (hd None others) (slept 1000 w1)) with
      | (Val r, w2) => (Val (Sent r), w2)
      | (Thrown _, w2) =>
          match count_try
                  (Interleaved.landed (hd None (tl others))
                     (slept 2000 w2)) with
          | (Val r, w3) => (Val (Sent r), w3)
          | (Thrown m, w3) => (Val (Sent (countFailed m)), w3)
          end
      end
  end.
Proof.
  unfold Interleaved.count_handler. change (Z.to_nat maxRetries) with 3%nat.
  cbn -[count_try slept Interleaved.landed].
  unfold try_catch, bind, sleep, Interleaved.land, ret.
  cbn -[count_try slept Interleaved.landed].
  destruct (count_try w) as [[r|m] w1]; [reflexivity|].
  destruct (count_try (Interleaved.landed (hd None others) (slept 1000 w1)))
    as [[r|m'] w2]; [reflexivity|].
  destruct (count_try
              (Interleaved.landed (hd None (tl others)) (slept 2000 w2)))
    as [[r|m''] w3]; reflexivity.
Qed.

(** A request that no other request interferes with is the handler of
    server.js on its own. *)
Lemma interleaved_alone (others : list (option Cache)) (w : World) :
  Forall (fun o => o = None) others ->
  Interleaved.count_handler others w = count_handler w.
Proof.
  intros Hall.
  assert (H1 : hd None others = None).
  { destruct Hall; [reflexivity | assumption]. }
  assert (H2 : hd None (tl others) = None).
  { destruct Hall as [|? ? ? Hrest]; [reflexivity|].
    destruct Hrest; [reflexivity | assumption]. }
  rewrite interleaved_count_unfold, count_handler_unfold, H1, H2.
  reflexivity.
Qed.

Lemma hd_Some_in {A} (l : list (option A)) (x : A) :
  hd None l = Some x -> In (Some x) l.
Proof.
  destruct l as [|y l]; simpl; [discriminate|]. intros ->. now left.
Qed.

Lemma in_tl {A} (l : list A) (x : A) : In x (tl l) -> In x l.
Proof. destruct l; simpl; auto. Qed.

(** A cache test passed on a retry although the cache was not fresh when
    the request came in: another request's assignment has landed. *)
Lemma fresh_on_retry (other : option Cache) (w wr : World)
    (c : Z) :
  Spec.fresh (cache w) (clock w) = false ->
  clock w <= clock wr ->
  cache wr = match other with Some k => k | None => cache w end ->
  cachedCount (cache wr) = Some c ->
  clock wr - countCacheTime (cache wr) < COUNT_CACHE_TTL ->
  exists stamp,
    other = Some {| cachedCount := Some c; countCacheTime := stamp |}.
Proof.
  intros Hs Hle Hc Hn Hlt. destruct other as [k|].
  - rewrite Hc in Hn. destruct k as [kc kt]. simpl in Hn. subst kc.
    exists kt. reflexivity.
  - exfalso. rewrite Hc in Hn, Hlt.
    exact (stale_not_cached _ _ _ _ Hs Hle Hn Hlt).
Qed.

(** C3, the claim as stated fails, twice. The count is stamped with the
    clock reading taken before the count query: here the first request
    reads the clock at 1000, its query takes 5 s, and the count is stored
    at 6000 with the stamp 1000; a second request arriving 26 s after
    that, at 32000, finds the stamp 31 s old and counts again. And a
    request that came in when nothing was cached can answer
    [cached: true]: here its first attempt fails, another request caches
    the count 9 while it waits, and its retry serves that count. *)
Lemma count_cache_claim_fails :
  (let w1 := Sample.world Sample.threeDocs [Sample.answersIn 5000] in
   let w1' := snd (count_handler w1) in
   let w2 := Sample.at_time 32000 w1' in
   fst (count_handler w1) = Val (Sent (json (CountBody 3 false))) /\
   clock w1' = 6000 /\
   cache w1' = {| cachedCount := Some 3; countCacheTime := 1000 |} /\
   clock w2 - clock w1' < COUNT_CACHE_TTL /\
   fst (count_handler w2) = Val (Sent (json (CountBody 3 false))) /\
   log (snd (count_handler w2)) = log w2 ++ [EvEstimatedCount]) /\
  (let w := Sample.world Sample.threeDocs
              [Sample.throws "e1"; Sample.throws "c1"] in
   let others :=
     [Some {| cachedCount := Some 9; countCacheTime := 1500 |}] in
   readyState w = 1 /\
   Spec.fresh (cache w) (clock w) = false /\
   fst (Interleaved.count_handler others w) =
   Val (Sent (json (CountBody 9 true)))).
Proof.
  repeat split.
Qed.

(** The world in which a retry of the count route starts. *)
Lemma nextStart_facts (ms : Z) (other : option Cache) (w : World) :
  Forall (fun o => 0 <= elapsed o) (pending w) ->
  0 <= ms ->
  clock w <= clock (Interleaved.nextStart ms other w) /\
  cache (Interleaved.nextStart ms other w) =
    match other with Some k => k | None => cache w end /\
  log (Interleaved.nextStart ms other w) =
    log w ++ [EvEstimatedCount; EvCountDocuments; EvSleep ms] /\
  Forall (fun o => 0 <= elapsed o)
    (pending (Interleaved.nextStart ms other w)).
Proof.
  intros Hall Hms.
  destruct (elapsed_hd _ Hall) as [H1 Hall1].
  destruct (elapsed_hd _ Hall1) as [H2 Hall2].
  destruct other as [k|]; unfold Interleaved.nextStart, Interleaved.landed;
    simpl; rewrite <- !app_assoc; simpl; repeat split; try assumption; lia.
Qed.

(** C3, amended: a request that stores a fresh count stamps it with the
    clock reading of the attempt that obtained it, taken before the count
    queries of that attempt ran; a later request that finds the connection
    ready and reads the clock less than 30 s after that stamp answers the
    same count with [cached: true] and leaves the world as it was, so it
    queries nothing. A request that comes in with the connection ready
    when no cached count is fresh (none stored, or a stamp 30 s old or
    older) runs a count query; when that query, or its exact fallback, is
    answered, it answers [cached: false] with the count it stored. A
    request answered with a 200 after a failed attempt answers
    [cached: false] as well, unless another request cached a count while
    it waited: then its retry serves that count with [cached: true]. *)
Theorem count_cache_ttl :
  (forall w, Interleaved.count_handler [] w = count_handler w) /\
  (forall others w1 w1' c,
     Interleaved.count_handler others w1 =
     (Val (Sent (json (CountBody c false))), w1') ->
     exists wa,
       (wa = w1 \/
        wa = Interleaved.nextStart 1000 (hd None others) w1 \/
        wa = Interleaved.nextStart 2000 (hd None (tl others))
               (Interleaved.nextStart 1000 (hd None others) w1)) /\
       cache w1' = {| cachedCount := Some c; countCacheTime := clock wa |} /\
       (w1' = with_cache (cache w1') (advance EvEstimatedCount wa) \/
        w1' = with_cache (cache w1')
                (advance EvCountDocuments (advance EvEstimatedCount wa))) /\
       forall w2 others2,
         cache w2 = cache w1' ->
         readyState w2 = 1 ->
         clock w2 - clock wa < COUNT_CACHE_TTL ->
         Interleaved.count_handler others2 w2 =
         (Val (Sent (json (CountBody c true))), w2)) /\
  (forall others w,
     readyState w = 1 ->
     Spec.fresh (cache w) (clock w) = false ->
     (fault (hd calm (pending w)) = None ->
      exists w',
        Interleaved.count_handler others w =
        (Val (Sent (json (CountBody (estimate w) false))), w') /\
        log w' = log w ++ [EvEstimatedCount] /\
        cachedCount (cache w') = Some (estimate w)) /\
     (forall m,
        fault (hd calm (pending w)) = Some m ->
        fault (hd calm (tl (pending w))) = None ->
        exists w',
          Interleaved.count_handler others w =
          (Val (Sent (json (CountBody
                             (Z.of_nat (List.length (collection w)))
                             false))), w') /\
          log w' = log w ++ [EvEstimatedCount; EvCountDocuments] /\
          cachedCount (cache w') =
          Some (Z.of_nat (List.length (collection w))))) /\
  (forall others w r w',
     Spec.fresh (cache w) (clock w) = false ->
     Forall (fun o => 0 <= elapsed o) (pending w) ->
     Interleaved.count_handler others w = (Val (Sent r), w') ->
     status r = 200 ->
     exists c evs,
       log w' = log w ++ evs /\
       (1 <= Spec.storeOps evs)%nat /\
       ((r = json (CountBody c false) /\ cachedCount (cache w') = Some c) \/
        (r = json (CountBody c true) /\
         exists stamp,
           In (Some {| cachedCount := Some c; countCacheTime := stamp |})
              others))).
Proof.
  split; [|split; [|split]].
  - intros w. apply interleaved_alone. constructor.
  - intros others w1 w1' c. rewrite interleaved_count_unfold.
    assert (Hserve : forall stamp,
      cache w1' = {| cachedCount := Some c; countCacheTime := stamp |} ->
      forall w2 others2,
        cache w2 = cache w1' -> readyState w2 = 1 ->
        clock w2 - stamp < COUNT_CACHE_TTL ->
        Interleaved.count_handler others2 w2 =
        (Val (Sent (json (CountBody c true))), w2)).
    { intros stamp Hc w2 others2 H2 Hr Ht. rewrite Hc in H2.
      rewrite interleaved_count_unfold, (count_try_cached w2 c Hr);
        rewrite ?H2; simpl; auto. }
    fold (Interleaved.nextStart 1000 (hd None others) w1).
    destruct (count_try w1) as [[r1|m1] wA] eqn:E1;
      apply count_try_spec in E1.
    { intros E; inversion E; subst r1 wA; clear E.
      exists w1. split; [now left|].
      inversion E1; subst;
        (split; [reflexivity|]);
        (split; [first [now left | now right]|]);
        apply Hserve; reflexivity. }
    inversion E1; subst; clear E1.
    change (Interleaved.landed (hd None others)
              (slept 1000
                 (advance EvCountDocuments (advance EvEstimatedCount w1))))
      with (Interleaved.nextStart 1000 (hd None others) w1).
    set (wB := Interleaved.nextStart 1000 (hd None others) w1).
    destruct (count_try wB) as [[r2|m2'] wC] eqn:E2;
      apply count_try_spec in E2.
    { intros E; inversion E; subst r2 wC; clear E.
      exists wB. split; [right; now left|].
      inversion E2; subst;
        (split; [reflexivity|]);
        (split; [first [now left | now right]|]);
        apply Hserve; reflexivity. }
    inversion E2; subst; clear E2.
    change (Interleaved.landed (hd None (tl others))
              (slept 2000
                 (advance EvCountDocuments (advance EvEstimatedCount wB))))
      with (Interleaved.nextStart 2000 (hd None (tl others)) wB).
    set (wD := Interleaved.nextStart 2000 (hd None (tl others)) wB).
    destruct (count_try wD) as [[r3|m3'] wE] eqn:E3;
      apply count_try_spec in E3.
    { intros E; inversion E; subst r3 wE; clear E.
      exists wD. split; [right; now right|].
      inversion E3; subst;
        (split; [reflexivity|]);
        (split; [first [now left | now right]|]);
        apply Hserve; reflexivity. }
    intros E; inversion E.
  - intros others w Hr Hs. split.
    + intros Hf.
      rewrite interleaved_count_unfold, (count_try_stale w Hr Hs),
        (count_fresh_estimated w _ Hf).
      eexists. split; [reflexivity|]. split; reflexivity.
    + intros m H1 H2.
      rewrite interleaved_count_unfold, (count_try_stale w Hr Hs),
        (count_fresh_exact w _ m H1 H2).
      eexists. split; [reflexivity|]. split; [|reflexivity].
      autorewrite with world. rewrite <- app_assoc. reflexivity.
  - intros others w r w' Hs Hall. rewrite interleaved_count_unfold.
    fold (Interleaved.nextStart 1000 (hd None others) w).
    destruct (count_try w) as [[r1|m1] wA] eqn:E1;
      apply count_try_spec in E1.
    { intros E Hst; inversion E; subst r1 wA; clear E.
      inversion E1; subst.
      - discriminate Hst.
      - exfalso. eapply stale_not_cached;
          [exact Hs | apply Z.le_refl | eassumption | eassumption].
      - exists (estimate w), [EvEstimatedCount].
        split; [reflexivity|]. split; [unfold Spec.storeOps; simpl; lia|].
        left. split; reflexivity.
      - exists (Z.of_nat (List.length (collection w))),
          [EvEstimatedCount; EvCountDocuments].
        split; [autorewrite with world; rewrite <- app_assoc; reflexivity|].
        split; [unfold Spec.storeOps; simpl; lia|].
        left. split; reflexivity. }
    inversion E1; subst; clear E1.
    change (Interleaved.landed (hd None others)
              (slept 1000
                 (advance EvCountDocuments (advance EvEstimatedCount w))))
      with (Interleaved.nextStart 1000 (hd None others) w).
    destruct (nextStart_facts 1000 (hd None others) w Hall ltac:(lia))
      as (HcB & HkB & HlB & HallB).
    set (wB := Interleaved.nextStart 1000 (hd None others) w) in *.
    destruct (count_try wB) as [[r2|m2'] wC] eqn:E2;
      apply count_try_spec in E2.
    { intros E Hst; inversion E; subst r2 wC; clear E.
      inversion E2; subst.
      - discriminate Hst.
      - destruct (fresh_on_retry (hd None others) w wB c Hs HcB HkB)
          as [stamp Hst']; try assumption.
        exists c, [EvEstimatedCount; EvCountDocuments; EvSleep 1000].
        split; [exact HlB|]. split; [unfold Spec.storeOps; simpl; lia|].
        right. split; [reflexivity|]. exists stamp.
        apply hd_Some_in. exact Hst'.
      - exists (estimate wB),
          [EvEstimatedCount; EvCountDocuments; EvSleep 1000;
           EvEstimatedCount].
        split; [autorewrite with world; rewrite HlB, <- !app_assoc;
                reflexivity|].
        split; [unfold Spec.storeOps; simpl; lia|].
        left. split; reflexivity.
      - exists (Z.of_nat (List.length (collection wB))),
          [EvEstimatedCount; EvCountDocuments; EvSleep 1000;
           EvEstimatedCount; EvCountDocuments].
        split; [autorewrite with world; rewrite HlB, <- !app_assoc;
                reflexivity|].
        split; [unfold Spec.storeOps; simpl; lia|].
        left. split; reflexivity. }
    inversion E2; subst; clear E2.
    change (Interleaved.landed (hd None (tl others))
              (slept 2000
                 (advance EvCountDocuments (advance EvEstimatedCount wB))))
      with (Interleaved.nextStart 2000 (hd None (tl others)) wB).
    destruct (nextStart_facts 2000 (hd None (tl others)) wB HallB
                ltac:(lia)) as (HcD & HkD & HlD & HallD).
    set (wD := Interleaved.nextStart 2000 (hd None (tl others)) wB) in *.
    destruct (count_try wD) as [[r3|m3'] wE] eqn:E3;
      apply count_try_spec in E3.
    { intros E Hst; inversion E; subst r3 wE; clear E.
      inversion E3; subst.
      - discriminate Hst.
      - destruct (fresh_on_retry
                    (match hd None (tl others) with
                     | Some k => Some k
                     | None => hd None others
                     end) w wD c Hs) as [stamp Hst']; try assumption.
        + lia.
        + rewrite HkD, HkB. destruct (hd None (tl others)); reflexivity.
        + exists c,
            [EvEstimatedCount; EvCountDocuments; EvSleep 1000;
             EvEstimatedCount; EvCountDocuments; EvSleep 2000].
          split; [rewrite HlD, HlB, <- !app_assoc; reflexivity|].
          split; [unfold Spec.storeOps; simpl; lia|].
          right. split; [reflexivity|]. exists stamp.
          destruct (hd None (tl others)) as [k|] eqn:Ek.
          * apply in_tl, hd_Some_in. rewrite Ek. exact Hst'.
          * apply hd_Some_in. exact Hst'.
      - exists (estimate wD),
          [EvEstimatedCount; EvCountDocuments; EvSleep 1000;
           EvEstimatedCount; EvCountDocuments; EvSleep 2000;
           EvEstimatedCount].
        split; [autorewrite with world; rewrite HlD, HlB, <- !app_assoc;
                reflexivity|].
        split; [unfold Spec.storeOps; simpl; lia|].
        left. split; reflexivity.
      - exists (Z.of_nat (List.length (collection wD))),
          [EvEstimatedCount; EvCountDocuments; EvSleep 1000;
           EvEstimatedCount; EvCountDocuments; EvSleep 2000;
           EvEstimatedCount; EvCountDocuments].
        split; [autorewrite with world; rewrite HlD, HlB, <- !app_assoc;
                reflexivity|].
        split; [unfold Spec.storeOps; simpl; lia|].
        left. split; reflexivity. }
    intros E Hst; inversion E; subst. discriminate Hst.
Qed.

Lemma count_cache_ttl_witness :
  (let w1 := Sample.world Sample.threeDocs [Sample.answersIn 5000] in
   let w2 := Sample.at_time 30999 (snd (Interleaved.count_handler [] w1)) in
   Interleaved.count_handler [] w2 =
   (Val (Sent (json (CountBody 3 true))), w2)) /\
  (let w := Sample.world Sample.threeDocs [] in
   exists w',
     Interleaved.count_handler [] w =
     (Val (Sent (json (CountBody (estimate w) false))), w') /\
     log w' = log w ++ [EvEstimatedCount] /\
     cachedCount (cache w') = Some (estimate w)) /\
  (let w := Sample.world Sample.threeDocs [Sample.throws "e1"] in
   exists w',
     Interleaved.count_handler [] w =
     (Val (Sent (json (CountBody 3 false))), w') /\
     log w' = log w ++ [EvEstimatedCount; EvCountDocuments] /\
     cachedCount (cache w') = Some 3) /\
  (let w := Sample.world Sample.threeDocs
              [Sample.throws "e1"; Sample.throws "c1"] in
   let others :=
     [Some {| cachedCount := Some 9; countCacheTime := 1500 |}] in
   exists c evs,
     log (snd (Interleaved.count_handler others w)) = log w ++ evs /\
     (1 <= Spec.storeOps evs)%nat /\
     ((json (CountBody 9 true) = json (CountBody c false) /\
       cachedCount (cache (snd (Interleaved.count_handler others w))) =
       Some c) \/
      (json (CountBody 9 true) = json (CountBody c true) /\
       exists stamp,
         In (Some {| cachedCount := Some c; countCacheTime := stamp |})
            others))).
Proof.
  destruct count_cache_ttl as (_ & Hstamp & Harrive & Hretry).
  split; [|split; [|split]].
  - intros w1 w2.
    destruct (Hstamp [] w1 (snd (Interleaved.count_handler [] w1)) 3
                eq_refl) as (wa & _ & Hc & _ & Hserve).
    apply Hserve; [reflexivity | reflexivity |].
    simpl in Hc. injection Hc as Hc. rewrite <- Hc. simpl. reflexivity.
  - intros w.
    apply (proj1 (Harrive [] w eq_refl eq_refl)). reflexivity.
  - intros w.
    apply (proj2 (Harrive [] w eq_refl eq_refl) "e1"%string);
      reflexivity.
  - intros w others.
    apply (Hretry others w (json (CountBody 9 true))
             (snd (Interleaved.count_handler others w))).
    + reflexivity.
    + repeat constructor; simpl; lia.
    + reflexivity.
    + reflexivity.
Defined.

Lemma batch_retries_exponential_backoff_witness :
  (exists w',
     batch_handler Sample.noParams
       (Sample.world Sample.threeDocs
          [Sample.throws "a"; Sample.throws "b"; Sample.throws "c"]) =
     (Val (Sent (status_json 500
                   (ErrorBody "Failed to fetch batch after retries"
                      (Some "c") (Some 3)))), w') /\
     log w' =
     [] ++ [batch_event Sample.noParams; EvSleep 1000;
            batch_event Sample.noParams; EvSleep 2000;
            batch_event Sample.noParams]) /\
  (exists w' evs records,
     batch_handler (Sample.request (JS.QStr "1") (JS.QStr "2"))
       (Sample.world Sample.threeDocs
          [Sample.throws "a"; Sample.throws "b"; Sample.answersIn 3]) =
     (Val (Sent {| status := 200;
                   body :=
                     BatchBody (map Expected.feature records) 1 2
                       (Z.of_nat (List.length records) =? 2)
                       (Z.of_nat (List.length records)) |}), w') /\
     records = Store.exec Sample.threeDocs (Expected.query 1 2) /\
     (0 <= 1 -> 0 < 2 ->
      records = Expected.records Sample.threeDocs 1 2) /\
     log w' = [] ++ evs /\
     Spec.storeOps evs = 3%nat /\
     Spec.sleeps evs = [1000; 2000] /\
     Forall (fun e => e = EvFind (Expected.query 1 2) \/
                      exists ms, e = EvSleep ms) evs).
Proof.
  split.
  - apply (proj1 (proj2 (proj2 (proj2 (proj2
             (batch_retries_exponential_backoff Sample.noParams
                (Sample.world Sample.threeDocs
                   [Sample.throws "a"; Sample.throws "b";
                    Sample.throws "c"]))))))
             (Sample.throws "a") (Sample.throws "b") (Sample.throws "c")
             [] "c").
    + reflexivity.
    + reflexivity.
    + unfold Spec.fails; simpl; discriminate.
    + unfold Spec.fails; simpl; discriminate.
    + reflexivity.
    + left; reflexivity.
    + left; reflexivity.
  - apply (proj2 (proj2 (proj2 (proj2 (proj2
             (batch_retries_exponential_backoff
                (Sample.request (JS.QStr "1") (JS.QStr "2"))
                (Sample.world Sample.threeDocs
                   [Sample.throws "a"; Sample.throws "b";
                    Sample.answersIn 3]))))))
             [Sample.throws "a"; Sample.throws "b"] (Sample.answersIn 3) []).
    + reflexivity.
    + reflexivity.
    + simpl. lia.
    + repeat constructor; unfold Spec.fails; simpl; discriminate.
    + reflexivity.
    + unfold JS.safe, JS.MAX_SAFE_INTEGER. vm_compute. discriminate.
    + unfold JS.safe, JS.MAX_SAFE_INTEGER. vm_compute. discriminate.
    + unfold JS.safe, JS.MAX_SAFE_INTEGER. vm_compute. discriminate.
Defined.

Lemma count_retries_linear_backoff_witness :
  exists w',
    count_handler
      (Sample.world Sample.threeDocs
         [Sample.throws "e1"; Sample.throws "c1"; Sample.throws "e2";
          Sample.throws "c2"; Sample.throws "e3"; Sample.throws "c3"]) =
    (Val (Sent (status_json 500
                  (ErrorBody "Failed to count features" (Some "c3") None))),
     w') /\
    log w' =
    [] ++ [EvEstimatedCount; EvCountDocuments; EvSleep 1000;
           EvEstimatedCount; EvCountDocuments; EvSleep 2000;
           EvEstimatedCount; EvCountDocuments] /\
    cache w' = initialCache.
Proof.
  apply (proj2 (count_retries_linear_backoff
           (Sample.world Sample.threeDocs
              [Sample.throws "e1"; Sample.throws "c1"; Sample.throws "e2";
               Sample.throws "c2"; Sample.throws "e3"; Sample.throws "c3"]))
           (Sample.throws "e1") (Sample.throws "c1") (Sample.throws "e2")
           (Sample.throws "c2") (Sample.throws "e3") (Sample.throws "c3")
           [] "c3");
    try reflexivity;
    try (unfold Spec.fails; simpl; discriminate);
    try (left; reflexivity);
    simpl; lia.
Defined.

Lemma cache_written_only_on_fresh_count_witness :
  cache
    (snd (count_handler
            (with_cache {| cachedCount := Some 7; countCacheTime := 0 |}
               (Sample.at_time 40000
                  (Sample.world Sample.threeDocs
                     [Sample.throws "e1"; Sample.throws "c1";
                      Sample.throws "e2"; Sample.throws "c2";
                      Sample.throws "e3"; Sample.throws "c3"]))))) =
  {| cachedCount := Some 7; countCacheTime := 0 |}.
Proof.
  apply (proj1 (proj2 (cache_written_only_on_fresh_count
           (with_cache {| cachedCount := Some 7; countCacheTime := 0 |}
              (Sample.at_time 40000
                 (Sample.world Sample.threeDocs
                    [Sample.throws "e1"; Sample.throws "c1";
                     Sample.throws "e2"; Sample.throws "c2";
                     Sample.throws "e3"; Sample.throws "c3"])))))
           (countFailed "c3")).
  - reflexivity.
  - simpl. lia.
Defined.

End Claims.

(** ** More of the routes: reading the query, paging, counting, health and
    start-up *)

Section Extras.
Import Env Express Server.

(** A character that is no decimal digit is no digit of radix 10. *)
Lemma radixDigit_not_digit (c : ascii) :
  Spec.isDigit c = false -> JS.radixDigit 10 c = None.
Proof.
  destruct c as [[] [] [] [] [] [] [] []]; vm_compute; congruence.
Qed.

(** Reading stops where the digits stop. *)
Lemma digitsPrefix_stop (suffix : string) (acc : option Z) :
  Client.noDigitAhead suffix -> JS.digitsPrefix 10 suffix acc = acc.
Proof.
  destruct suffix as [|c rest]; simpl; [reflexivity|].
  intros H. rewrite (radixDigit_not_digit c H). reflexivity.
Qed.

(** One step of [digitsPrefix] on a digit that stands in the text. *)
Ltac read_digit :=
  cbn [JS.digitsPrefix];
  match goal with
  | |- context [JS.radixDigit 10 ?c] =>
      let v := eval vm_compute in (JS.radixDigit 10 c) in
      change (JS.radixDigit 10 c) with v
  end;
  cbv beta iota.

(** Reading the digits of [d] after digits that made [acc]. *)
Lemma digitsPrefix_uint_acc (d : Decimal.uint) (suffix : string)
    (acc : positive) :
  Client.noDigitAhead suffix ->
  JS.digitsPrefix 10
    (DecimalString.NilEmpty.string_of_uint d ++ suffix)%string
    (Some (Zpos acc)) =
  Some (Zpos (Pos.of_uint_acc d acc)).
Proof.
  intros Hs. revert acc.
  induction d as [|d IH|d IH|d IH|d IH|d IH|d IH|d IH|d IH|d IH|d IH];
    intros acc;
    cbn [DecimalString.NilEmpty.string_of_uint String.append
         Pos.of_uint_acc];
    [apply digitsPrefix_stop, Hs | ..];
    read_digit; rewrite <- IH; do 2 f_equal; lia.
Qed.

(** Reading the digits of [d] after zeros only. *)
Lemma digitsPrefix_uint_zero (d : Decimal.uint) (suffix : string) :
  Client.noDigitAhead suffix ->
  JS.digitsPrefix 10
    (DecimalString.NilEmpty.string_of_uint d ++ suffix)%string (Some 0) =
  Some (Z.of_N (Pos.of_uint d)).
Proof.
  intros Hs.
  induction d as [|d IH|d IH|d IH|d IH|d IH|d IH|d IH|d IH|d IH|d IH];
    cbn [DecimalString.NilEmpty.string_of_uint String.append Pos.of_uint];
    [apply digitsPrefix_stop, Hs | read_digit; exact IH | ..];
    read_digit;
    match goal with
    | |- JS.digitsPrefix _ _ (Some ?k) = _ =>
        let v := eval vm_compute in k in change k with v
    end;
    apply digitsPrefix_uint_acc, Hs.
Qed.

(** Reading the digits of [d] from the start. *)
Lemma digitsPrefix_uint (d : Decimal.uint) (suffix : string) :
  d <> Decimal.Nil ->
  Client.noDigitAhead suffix ->
  JS.digitsPrefix 10
    (DecimalString.NilEmpty.string_of_uint d ++ suffix)%string None =
  Some (Z.of_N (Pos.of_uint d)).
Proof.
  intros Hd Hs.
  destruct d; [congruence | ..];
    cbn [DecimalString.NilEmpty.string_of_uint String.append Pos.of_uint];
    read_digit;
    match goal with
    | |- JS.digitsPrefix _ _ (Some ?k) = _ =>
        let v := eval vm_compute in k in change k with v
    end;
    [apply (digitsPrefix_uint_zero d suffix Hs) | ..];
    apply digitsPrefix_uint_acc, Hs.
Qed.

(** The decimal digits of a positive number start with a digit that is
    not 0. *)
Lemma unorm_leading_zero (d l : Decimal.uint) :
  Decimal.unorm d = Decimal.D0 l -> l = Decimal.Nil.
Proof.
  induction d; simpl; intros H; try discriminate; auto.
  - inversion H. reflexivity.
Qed.

Lemma to_uint_leading (p : positive) (l : Decimal.uint) :
  Pos.to_uint p <> Decimal.D0 l.
Proof.
  intros H.
  pose proof (DecimalPos.Unsigned.to_of (Pos.to_uint p)) as Hn.
  rewrite DecimalPos.Unsigned.of_to in Hn. simpl in Hn.
  rewrite H in Hn. symmetry in Hn.
  pose proof (unorm_leading_zero _ _ Hn) as ->.
  apply (DecimalPos.Unsigned.to_uint_nonzero p). exact H.
Qed.

(** [parseInt] on a text that starts with a digit other than 0. *)
Lemma parseInt_starts_nonzero (c : ascii) (rest : string) :
  Spec.isDigit c = true -> c <> "0"%char ->
  JS.parseInt (String c rest) =
  match JS.digitsPrefix 10 (String c rest) None with
  | None => JS.NaN
  | Some n => JS.Num n
  end.
Proof.
  destruct c as [[] [] [] [] [] [] [] []]; intros Hd Hz;
    try (vm_compute in Hd; discriminate Hd);
    try (exfalso; apply Hz; reflexivity);
    unfold JS.parseInt; cbn [JS.trimStart]; cbv beta iota;
    match goal with
    | |- context [JS.isWhiteSpace ?c] =>
        change (JS.isWhiteSpace c) with false
    end; cbv beta iota;
    destruct (JS.digitsPrefix 10 _ None) as [n|]; try reflexivity;
    f_equal; lia.
Qed.

(** [parseInt] on a minus sign followed by such a text. *)
Lemma parseInt_minus_nonzero (c : ascii) (rest : string) :
  Spec.isDigit c = true -> c <> "0"%char ->
  JS.parseInt (String "-" (String c rest)) =
  match JS.digitsPrefix 10 (String c rest) None with
  | None => JS.NaN
  | Some n => JS.Num (- n)
  end.
Proof.
  destruct c as [[] [] [] [] [] [] [] []]; intros Hd Hz;
    try (vm_compute in Hd; discriminate Hd);
    try (exfalso; apply Hz; reflexivity);
    unfold JS.parseInt; cbn [JS.trimStart]; cbv beta iota;
    change (JS.isWhiteSpace "-") with false; cbv beta iota;
    destruct (JS.digitsPrefix 10 _ None) as [n|]; try reflexivity;
    f_equal; lia.
Qed.

(** The text of a positive number starts with a digit other than 0. *)
Lemma string_of_pos (p : positive) :
  exists c rest,
    DecimalString.NilEmpty.string_of_uint (Pos.to_uint p) = String c rest /\
    DecimalString.NilZero.string_of_uint (Pos.to_uint p) = String c rest /\
    Spec.isDigit c = true /\ c <> "0"%char.
Proof.
  pose proof (to_uint_leading p) as Hz.
  pose proof (DecimalPos.Unsigned.to_uint_nonnil p) as Hn.
  destruct (Pos.to_uint p) as [|d|d|d|d|d|d|d|d|d|d];
    [congruence | exfalso; apply (Hz d); reflexivity | ..];
    eexists; eexists; (split; [reflexivity|]); (split; [reflexivity|]);
    (split; [reflexivity | discriminate]).
Qed.

(** [parseInt] reads the decimal text of an integer as that integer, and
    is not put off by what follows the digits, unless the text is [0] and
    goes on with [x]: that is the mark of a hexadecimal number. *)
Lemma parseInt_decimal (z : Z) (suffix : string) :
  Client.noDigitAhead suffix ->
  (z = 0 -> Client.noHexMark suffix) ->
  JS.parseInt (Client.decimal z ++ suffix)%string = JS.Num z.
Proof.
  intros Hs Hx. unfold Client.decimal. destruct z as [|p|p].
  - specialize (Hx eq_refl).
    change (DecimalString.NilZero.string_of_int (Z.to_int 0)) with "0".
    cbn [String.append].
    destruct suffix as [|c rest]; [reflexivity|].
    simpl in Hs, Hx. destruct Hx as [Hx1 Hx2].
    destruct c as [[] [] [] [] [] [] [] []];
      try (vm_compute in Hs; discriminate Hs);
      try (exfalso; apply Hx1; reflexivity);
      try (exfalso; apply Hx2; reflexivity);
      reflexivity.
  - destruct (string_of_pos p) as (c & rest & He & Hz & Hd & Hn).
    cbn [Z.to_int DecimalString.NilZero.string_of_int].
    rewrite Hz. cbn [String.append].
    rewrite (parseInt_starts_nonzero c _ Hd Hn).
    change (String c (rest ++ suffix)%string)
      with (String c rest ++ suffix)%string.
    rewrite <- He, digitsPrefix_uint;
      [| apply DecimalPos.Unsigned.to_uint_nonnil | exact Hs].
    rewrite DecimalPos.Unsigned.of_to. reflexivity.
  - destruct (string_of_pos p) as (c & rest & He & Hz & Hd & Hn).
    cbn [Z.to_int DecimalString.NilZero.string_of_int].
    rewrite Hz. cbn [String.append].
    rewrite (parseInt_minus_nonzero c _ Hd Hn).
    change (String c (rest ++ suffix)%string)
      with (String c rest ++ suffix)%string.
    rewrite <- He, digitsPrefix_uint;
      [| apply DecimalPos.Unsigned.to_uint_nonnil | exact Hs].
    rewrite DecimalPos.Unsigned.of_to. reflexivity.
Qed.

(** X1: a [page] or [limit] written as a decimal integer between
    -(2^53 - 1) and 2^53 - 1, the integers a JavaScript number holds
    exactly, is read as that integer, whatever its sign, also when other
    characters follow the digits; only [limit] 0 turns into 500. The one
    exception is excluded by the second premise: [0x...] is read as a
    hexadecimal number. *)
Theorem batch_reads_decimal (z : Z) (suffix : string) (other : JS.QueryValue) :
  JS.safe z ->
  Client.noDigitAhead suffix ->
  (z = 0 -> Client.noHexMark suffix) ->
  batch_page
    {| query_page := JS.QStr (Client.decimal z ++ suffix)%string;
       query_limit := other |} = z /\
  batch_limit
    {| query_page := other;
       query_limit := JS.QStr (Client.decimal z ++ suffix)%string |} =
  (if z =? 0 then 500 else z).
Proof.
  intros _ Hs Hx. unfold batch_page, batch_limit; simpl.
  rewrite (parseInt_decimal z suffix Hs Hx). simpl.
  destruct (z =? 0) eqn:E; [|split; reflexivity].
  apply Z.eqb_eq in E. subst. split; reflexivity.
Qed.

Lemma batch_reads_decimal_witness :
  batch_page
    {| query_page := JS.QStr (Client.decimal (-12) ++ "px")%string;
       query_limit := JS.QUndefined |} = -12 /\
  batch_limit
    {| query_page := JS.QUndefined;
       query_limit := JS.QStr (Client.decimal (-12) ++ "px")%string |} =
  (if -12 =? 0 then 500 else -12).
Proof.
  apply (batch_reads_decimal (-12) "px" JS.QUndefined).
  - unfold JS.safe, JS.MAX_SAFE_INTEGER. vm_compute. discriminate.
  - reflexivity.
  - intros H. discriminate H.
Defined.

Lemma append_empty (s : string) : (s ++ EmptyString)%string = s.
Proof.
  induction s as [|c s IH]; simpl; [reflexivity | now rewrite IH].
Qed.

(** The request for page [p] with limit [L] is read as it was written. *)
Lemma pageRequest_read (L : Z) (p : nat) :
  L <> 0 ->
  batch_page (Client.pageRequest L p) = Z.of_nat p /\
  batch_limit (Client.pageRequest L p) = L.
Proof.
  intros HL. unfold Client.pageRequest, batch_page, batch_limit; simpl.
  pose proof (parseInt_decimal (Z.of_nat p) EmptyString I (fun _ => I)) as Hp.
  pose proof (parseInt_decimal L EmptyString I (fun _ => I)) as Hl.
  rewrite append_empty in Hp, Hl.
  rewrite Hp, Hl. simpl.
  destruct (Z.eqb_spec (Z.of_nat p) 0) as [E|E];
    destruct (Z.eqb_spec L 0); try contradiction; auto.
Qed.

(** X2: the batch route does not check the sign of [page]: with a
    negative page and a positive limit, both and their product within
    the integers a JavaScript number holds exactly, the first thing a
    request does when the connection is ready is to send the store the
    query sorted by [_id], with the negative skip [page * limit], the
    limit and a time limit of 50 s. *)
Theorem negative_page_reaches_store (req : Request) (w : World)
    (res : Result Reply) (w' : World) :
  batch_page req < 0 ->
  0 < batch_limit req ->
  JS.safe (batch_page req) ->
  JS.safe (batch_limit req) ->
  JS.safe (batch_page req * batch_limit req) ->
  readyState w = 1 ->
  batch_handler req w = (res, w') ->
  exists skip evs,
    log w' =
    log w ++
    EvFind {| Query.q_sort := true; Query.q_skip := Some skip;
              Query.q_limit := Some (batch_limit req);
              Query.q_maxTimeMS := Some 50000 |} :: evs /\
    skip = batch_page req * batch_limit req /\
    skip < 0.
Proof.
  intros Hp Hl _ _ _ Hr. rewrite batch_handler_unfold.
  assert (Hneg : batch_page req * batch_limit req < 0) by nia.
  repeat batch_attempt; try contradiction;
    intros E; inversion E; subst; clear E;
    exists (batch_page req * batch_limit req);
    autorewrite with world; rewrite <- ?app_assoc;
    eexists; (split; [reflexivity|]); (split; [reflexivity | exact Hneg]).
Qed.

Lemma negative_page_reaches_store_witness :
  exists skip evs,
    log (snd (batch_handler (Sample.request (JS.QStr "-2") (JS.QStr "10"))
                (Sample.world Sample.threeDocs []))) =
    [] ++
    EvFind {| Query.q_sort := true; Query.q_skip := Some skip;
              Query.q_limit := Some 10;
              Query.q_maxTimeMS := Some 50000 |} :: evs /\
    skip = -2 * 10 /\
    skip < 0.
Proof.
  apply (negative_page_reaches_store
           (Sample.request (JS.QStr "-2") (JS.QStr "10"))
           (Sample.world Sample.threeDocs [])
           (fst (batch_handler (Sample.request (JS.QStr "-2") (JS.QStr "10"))
                   (Sample.world Sample.threeDocs [])))
           (snd (batch_handler (Sample.request (JS.QStr "-2") (JS.QStr "10"))
                   (Sample.world Sample.threeDocs [])))).
  - reflexivity.
  - reflexivity.
  - unfold JS.safe, JS.MAX_SAFE_INTEGER. vm_compute. discriminate.
  - unfold JS.safe, JS.MAX_SAFE_INTEGER. vm_compute. discriminate.
  - unfold JS.safe, JS.MAX_SAFE_INTEGER. vm_compute. discriminate.
  - reflexivity.
  - reflexivity.
Defined.

(** In a quiet world the next store operation answers and leaves the world
    quiet. *)
Lemma quiet_next (w : World) :
  Client.quiet w ->
  fault (hd calm (pending w)) = None /\
  forall ev, Client.quiet (advance ev w).
Proof.
  intros [Hr Hall]. unfold Client.quiet, advance.
  destruct (pending w) as [|o rest]; simpl.
  - split; [reflexivity|]. intros _. split; [exact Hr | constructor].
  - inversion Hall as [|? ? [Hf Hs] Hrest]; subst.
    split; [exact Hf|]. intros _. split; [|exact Hrest].
    destruct Hs as [Hs|Hs]; rewrite Hs; [exact Hr | reflexivity].
Qed.

Lemma batch_quiet (req : Request) (w : World) :
  Client.quiet w ->
  batch_handler req w =
  (Val (Sent (batch_response req (collection w))),
   advance (batch_event req) w).
Proof.
  intros Hq. destruct (quiet_next w Hq) as [Hf _].
  apply batch_handler_first_try; [apply Hq | exact Hf].
Qed.

(** A series of batch requests in a quiet world: each one is answered at
    the first attempt, on the same collection. *)
Lemma fetch_quiet (reqs : list Request) (w : World) :
  Client.quiet w ->
  fst (Client.fetch reqs w) =
  map (fun req => Val (Sent (batch_response req (collection w)))) reqs /\
  Client.quiet (snd (Client.fetch reqs w)) /\
  cache (snd (Client.fetch reqs w)) = cache w.
Proof.
  revert w. induction reqs as [|req rest IH]; intros w Hq; simpl.
  - auto.
  - rewrite (batch_quiet req w Hq).
    destruct (quiet_next w Hq) as [_ Hnext].
    specialize (IH (advance (batch_event req) w) (Hnext _)).
    destruct (Client.fetch rest (advance (batch_event req) w)) as [rs w2].
    simpl in *. destruct IH as (E & Hq2 & Hc). rewrite E. auto.
Qed.

(** The records on page [p] when pages hold [L] records. *)
Lemma page_records (L : Z) (p : nat) (coll : list Doc.t) :
  0 < L ->
  batch_response (Client.pageRequest L p) coll =
  let records :=
    firstn (Z.to_nat L)
      (skipn (p * Z.to_nat L) (Store.sortById coll)) in
  json (BatchBody (map toFeature records) (Z.of_nat p) L
          (Z.of_nat (List.length records) =? L)
          (Z.of_nat (List.length (map toFeature records)))).
Proof.
  intros HL. unfold batch_response.
  destruct (pageRequest_read L p) as [-> ->]; [lia|].
  rewrite exec_batch_query.
  replace (Z.to_nat (Z.of_nat p * L)) with (p * Z.to_nat L)%nat by nia.
  reflexivity.
Qed.

Lemma firstn_plus {A} (a b : nat) (l : list A) :
  firstn (a + b) l = firstn a l ++ firstn b (skipn a l).
Proof.
  revert l. induction a as [|a IH]; intros l; simpl; [reflexivity|].
  destruct l as [|x l]; simpl.
  - now rewrite firstn_nil.
  - now rewrite IH.
Qed.

(** Consecutive slices of [k] elements make up a prefix. *)
Lemma slices_concat {A} (k n : nat) (l : list A) :
  List.concat (map (fun p => firstn k (skipn (p * k) l)) (seq 0 n)) =
  firstn (n * k) l.
Proof.
  induction n as [|n IH]; [reflexivity|].
  rewrite seq_S, map_app, concat_app, IH. simpl.
  rewrite app_nil_r, (Nat.add_comm k (n * k)). symmetry. apply firstn_plus.
Qed.

Lemma sortById_length (coll : list Doc.t) :
  List.length (Store.sortById coll) = List.length coll.
Proof. apply Permutation_length, sortById_perm. Qed.

(** The features of pages 0 to n-1, fetched in a row. *)
Lemma fetch_pages_prefix (w : World) (L : Z) (n : nat) :
  0 < L ->
  Client.quiet w ->
  List.concat (map Client.features
            (fst (Client.fetch (map (Client.pageRequest L) (seq 0 n)) w))) =
  map toFeature
    (firstn (n * Z.to_nat L) (Store.sortById (collection w))).
Proof.
  intros HL Hq. destruct (fetch_quiet (map (Client.pageRequest L) (seq 0 n))
                            w Hq) as (-> & _ & _).
  rewrite !map_map.
  rewrite <- slices_concat, concat_map, map_map.
  f_equal. apply map_ext. intros p.
  rewrite (page_records L p (collection w) HL). reflexivity.
Qed.

(** X3: batch requests for pages 0, 1, ..., n-1 with the same positive
    limit, sent one after the other to a store that answers, return the
    first n * limit documents in ascending [_id] order, page after page:
    no document is skipped or repeated between pages. *)
Theorem pages_tile_sorted_collection (w : World) (L : Z) (n : nat) :
  0 < L ->
  Client.quiet w ->
  List.concat (map Client.features
            (fst (Client.fetch (map (Client.pageRequest L) (seq 0 n)) w))) =
  map toFeature
    (firstn (n * Z.to_nat L) (Store.sortById (collection w))).
Proof. exact (fetch_pages_prefix w L n). Qed.

Lemma pages_tile_sorted_collection_witness :
  List.concat (map Client.features
            (fst (Client.fetch (map (Client.pageRequest 2) (seq 0 2))
                    (Sample.world Sample.threeDocs [])))) =
  map toFeature
    (firstn (2 * Z.to_nat 2)
       (Store.sortById (collection (Sample.world Sample.threeDocs [])))).
Proof.
  apply (pages_tile_sorted_collection (Sample.world Sample.threeDocs []) 2 2).
  - reflexivity.
  - split; [reflexivity | constructor].
Defined.

(** The [hasMore] flag of page [p]. *)
Lemma hasMore_page (w : World) (L : Z) (p : nat) :
  0 < L ->
  Client.quiet w ->
  Client.hasMore (fst (batch_handler (Client.pageRequest L p) w)) =
  (Z.of_nat (Nat.min (Z.to_nat L)
               (List.length (collection w) - p * Z.to_nat L)) =? L) /\
  Client.features (fst (batch_handler (Client.pageRequest L p) w)) =
  map toFeature
    (firstn (Z.to_nat L)
       (skipn (p * Z.to_nat L) (Store.sortById (collection w)))).
Proof.
  intros HL Hq. rewrite (batch_quiet _ w Hq). simpl fst.
  rewrite (page_records L p (collection w) HL). simpl.
  rewrite length_firstn, length_skipn, sortById_length. auto.
Qed.

(** X4: on a store that answers, [hasMore] of page [p] is true exactly
    when the collection holds (p + 1) * limit documents or more. That
    includes the case of exactly (p + 1) * limit documents, where nothing
    is left: the next page is then empty and says [hasMore: false]. *)
Theorem hasMore_counts_ahead (w : World) (L : Z) (p : nat) :
  0 < L ->
  Client.quiet w ->
  (Client.hasMore (fst (batch_handler (Client.pageRequest L p) w)) = true <->
   (Z.of_nat p + 1) * L <= Z.of_nat (List.length (collection w))) /\
  ((Z.of_nat p + 1) * L = Z.of_nat (List.length (collection w)) ->
   Client.features
     (fst (batch_handler (Client.pageRequest L (S p)) w)) = [] /\
   Client.hasMore
     (fst (batch_handler (Client.pageRequest L (S p)) w)) = false).
Proof.
  intros HL Hq.
  destruct (hasMore_page w L p HL Hq) as [-> _].
  destruct (hasMore_page w L (S p) HL Hq) as [-> ->].
  set (l := Z.to_nat L). set (len := List.length (collection w)).
  assert (El : L = Z.of_nat l) by (unfold l; lia).
  assert (Hl : (0 < l)%nat) by (unfold l; lia).
  replace ((Z.of_nat p + 1) * L) with (Z.of_nat (p * l + l)) by nia.
  split.
  - rewrite Z.eqb_eq, El. split; intros H; lia.
  - intros Hlen. split.
    + rewrite skipn_all2; [now rewrite firstn_nil|].
      rewrite sortById_length. fold len. simpl. lia.
    + apply Z.eqb_neq. rewrite El. simpl. lia.
Qed.

Lemma hasMore_counts_ahead_witness :
  (Client.hasMore (fst (batch_handler (Client.pageRequest 3 0)
                          (Sample.world Sample.threeDocs []))) = true <->
   (Z.of_nat 0 + 1) * 3 <= 3) /\
  ((Z.of_nat 0 + 1) * 3 = 3 ->
   Client.features
     (fst (batch_handler (Client.pageRequest 3 1)
             (Sample.world Sample.threeDocs []))) = [] /\
   Client.hasMore
     (fst (batch_handler (Client.pageRequest 3 1)
             (Sample.world Sample.threeDocs []))) = false).
Proof.
  apply (hasMore_counts_ahead (Sample.world Sample.threeDocs []) 3 0).
  - reflexivity.
  - split; [reflexivity | constructor].
Defined.

(** X5: when page [p] comes back with [hasMore: false], pages 0 to p,
    fetched in a row from a store that answers, hold the feature of every
    document of the collection exactly once, in ascending [_id] order. *)
Theorem last_page_completes (w : World) (L : Z) (p : nat) :
  0 < L ->
  Client.quiet w ->
  Client.hasMore (fst (batch_handler (Client.pageRequest L p) w)) = false ->
  let fetched :=
    List.concat (map Client.features
              (fst (Client.fetch (map (Client.pageRequest L) (seq 0 (S p)))
                      w))) in
  fetched = map toFeature (Store.sortById (collection w)) /\
  Permutation fetched (map toFeature (collection w)).
Proof.
  intros HL Hq Hmore fetched.
  assert (E : fetched = map toFeature (Store.sortById (collection w))).
  { unfold fetched. rewrite (fetch_pages_prefix w L (S p) HL Hq).
    rewrite firstn_all2; [reflexivity|].
    destruct (hasMore_page w L p HL Hq) as [Hm _]. rewrite Hm in Hmore.
    apply Z.eqb_neq in Hmore. rewrite sortById_length. simpl. lia. }
  split; [exact E|]. rewrite E. apply Permutation_map, sortById_perm.
Qed.

Lemma last_page_completes_witness :
  List.concat (map Client.features
            (fst (Client.fetch (map (Client.pageRequest 2) (seq 0 2))
                    (Sample.world Sample.threeDocs [])))) =
  map toFeature (Store.sortById Sample.threeDocs) /\
  Permutation
    (List.concat (map Client.features
               (fst (Client.fetch (map (Client.pageRequest 2) (seq 0 2))
                       (Sample.world Sample.threeDocs [])))))
    (map toFeature Sample.threeDocs).
Proof.
  apply (last_page_completes (Sample.world Sample.threeDocs []) 2 1).
  - reflexivity.
  - split; [reflexivity | constructor].
  - reflexivity.
Defined.

Lemma truthy_or (a b : JS.Value) :
  JS.truthy b = true -> JS.truthy (JS.or a b) = true.
Proof.
  intros Hb. unfold JS.or. destruct (JS.truthy a) eqn:Ha; assumption.
Qed.

(** X7: every feature the batch and legacy routes build has a geometry,
    properties and a file tag that are truthy, so never undefined, null or
    empty; a field that is present but falsy in the document (null, 0,
    false, the empty string) is replaced by the default like a missing
    one. *)
Theorem features_have_no_gaps (d : Doc.t) :
  JS.truthy (GeoJSON.geometry (toFeature d)) = true /\
  JS.truthy (GeoJSON.properties (toFeature d)) = true /\
  JS.truthy (GeoJSON.file (toFeature d)) = true /\
  (JS.truthy (Doc.geometry d) = false ->
   GeoJSON.geometry (toFeature d) = defaultGeometry) /\
  (JS.truthy (Doc.properties d) = false ->
   GeoJSON.properties (toFeature d) = JS.VObj []) /\
  (JS.truthy (Doc.file d) = false ->
   GeoJSON.file (toFeature d) = JS.VStr "default").
Proof.
  unfold toFeature; simpl.
  repeat split; try (apply truthy_or; reflexivity);
    intros H; unfold JS.or; rewrite H; reflexivity.
Qed.

Lemma features_have_no_gaps_witness :
  GeoJSON.geometry
    (toFeature {| Doc._id := 5; Doc.geometry := JS.Null;
                  Doc.properties := JS.VNum 0;
                  Doc.file := JS.VStr EmptyString |}) = defaultGeometry /\
  GeoJSON.properties
    (toFeature {| Doc._id := 5; Doc.geometry := JS.Null;
                  Doc.properties := JS.VNum 0;
                  Doc.file := JS.VStr EmptyString |}) = JS.VObj [] /\
  GeoJSON.file
    (toFeature {| Doc._id := 5; Doc.geometry := JS.Null;
                  Doc.properties := JS.VNum 0;
                  Doc.file := JS.VStr EmptyString |}) = JS.VStr "default".
Proof.
  pose proof (features_have_no_gaps
                {| Doc._id := 5; Doc.geometry := JS.Null;
                   Doc.properties := JS.VNum 0;
                   Doc.file := JS.VStr EmptyString |})
    as (_ & _ & _ & Hg & Hp & Hf).
  split; [apply Hg; reflexivity|].
  split; [apply Hp; reflexivity | apply Hf; reflexivity].
Defined.

Lemma batch_limit_nonzero (req : Request) : batch_limit req <> 0.
Proof.
  unfold batch_limit, JS.or_num.
  destruct (JS.parseInt (JS.ToString (query_limit req))) as [|z];
    [discriminate|].
  destruct (Z.eqb_spec z 0); [discriminate | assumption].
Qed.

(** X8: the limit the batch route uses is never 0, whatever the query
    says, so the store is never asked for an unlimited page; and a 200
    response without features always says [hasMore: false] and
    [count: 0]: an empty page ends the paging. *)
Theorem empty_page_ends_paging (req : Request) (w : World)
    (r : Response) (w' : World) :
  batch_handler req w = (Val (Sent r), w') ->
  status r = 200 ->
  batch_limit req <> 0 /\
  forall page limit more count,
    body r = BatchBody [] page limit more count ->
    limit <> 0 /\ more = false /\ count = 0.
Proof.
  intros E Hs. split; [apply batch_limit_nonzero|].
  destruct (batch_handler_success req w r w' E Hs) as [-> _].
  intros page limit more count Hb. unfold batch_response in Hb.
  simpl in Hb. inversion Hb as [[Hf Hp Hl Hm Hc]].
  apply map_eq_nil in Hf.
  pose proof (batch_limit_nonzero req) as Hne.
  subst limit more count. clear Hb. rewrite Hf.
  split; [exact Hne|]. split; [|reflexivity].
  apply Z.eqb_neq. simpl. congruence.
Qed.

Lemma empty_page_ends_paging_witness :
  batch_limit (Sample.request (JS.QStr "7") (JS.QStr "0")) <> 0 /\
  forall page limit more count,
    body (batch_response (Sample.request (JS.QStr "7") (JS.QStr "0"))
            Sample.threeDocs) = BatchBody [] page limit more count ->
    limit <> 0 /\ more = false /\ count = 0.
Proof.
  apply (empty_page_ends_paging
           (Sample.request (JS.QStr "7") (JS.QStr "0"))
           (Sample.world Sample.threeDocs [])
           (batch_response (Sample.request (JS.QStr "7") (JS.QStr "0"))
              Sample.threeDocs)
           (advance (batch_event (Sample.request (JS.QStr "7") (JS.QStr "0")))
              (Sample.world Sample.threeDocs []))).
  - reflexivity.
  - reflexivity.
Defined.

(** X9: the exact count is a fallback and nothing more. With the
    connection ready and no fresh cached count, a request whose estimate
    query answers returns the estimate after that one store operation; a
    request whose estimate query throws and whose exact count answers
    returns the number of documents, in the same attempt and without a
    timer. Both store the count with the clock reading of the request. *)
Theorem exact_count_is_fallback (w : World) :
  readyState w = 1 ->
  Spec.fresh (cache w) (clock w) = false ->
  (fault (hd calm (pending w)) = None ->
   exists w',
     count_handler w = (Val (Sent (json (CountBody (estimate w) false))), w') /\
     log w' = log w ++ [EvEstimatedCount] /\
     cache w' =
       {| cachedCount := Some (estimate w); countCacheTime := clock w |}) /\
  (forall m,
     fault (hd calm (pending w)) = Some m ->
     fault (hd calm (tl (pending w))) = None ->
     exists w',
       count_handler w =
       (Val (Sent (json (CountBody
                          (Z.of_nat (List.length (collection w))) false))),
        w') /\
       log w' = log w ++ [EvEstimatedCount; EvCountDocuments] /\
       cache w' =
         {| cachedCount := Some (Z.of_nat (List.length (collection w)));
            countCacheTime := clock w |}).
Proof.
  intros Hr Hs. split.
  - intros Hf.
    rewrite count_handler_unfold, (count_try_stale w Hr Hs),
      (count_fresh_estimated w _ Hf).
    eexists. split; [reflexivity|]. split; reflexivity.
  - intros m H1 H2.
    rewrite count_handler_unfold, (count_try_stale w Hr Hs),
      (count_fresh_exact w _ m H1 H2).
    eexists. split; [reflexivity|]. split; [|reflexivity].
    autorewrite with world. rewrite <- app_assoc. reflexivity.
Qed.

Lemma exact_count_is_fallback_witness :
  exists w',
    count_handler
      {| readyState := 1; clock := 50; collection := Sample.threeDocs;
         estimate := 9; cache := initialCache;
         pending := [Sample.throws "no estimate"]; log := [] |} =
    (Val (Sent (json (CountBody 3 false))), w') /\
    log w' = [] ++ [EvEstimatedCount; EvCountDocuments] /\
    cache w' = {| cachedCount := Some 3; countCacheTime := 50 |}.
Proof.
  apply (proj2 (exact_count_is_fallback
           {| readyState := 1; clock := 50; collection := Sample.threeDocs;
              estimate := 9; cache := initialCache;
              pending := [Sample.throws "no estimate"]; log := [] |}
           eq_refl eq_refl) "no estimate"); reflexivity.
Defined.

(** X10: a count request whose two count queries throw in the first and
    in the second attempt and whose estimate answers in the third is a
    success: it returns the estimate with [cached: false], after the
    timers of 1000 and 2000 ms, and stores it with the clock reading taken
    at the start of the third attempt. *)
Theorem count_recovers_on_third_attempt (w : World)
    (o1 o2 o3 o4 o5 : Outcome) (rest : list Outcome) :
  readyState w = 1 ->
  Spec.fresh (cache w) (clock w) = false ->
  pending w = o1 :: o2 :: o3 :: o4 :: o5 :: rest ->
  Spec.fails o1 -> Spec.fails o2 -> Spec.fails o3 -> Spec.fails o4 ->
  fault o5 = None ->
  Spec.staysReady o1 -> Spec.staysReady o2 ->
  Spec.staysReady o3 -> Spec.staysReady o4 ->
  0 <= elapsed o1 -> 0 <= elapsed o2 ->
  0 <= elapsed o3 -> 0 <= elapsed o4 ->
  exists w',
    count_handler w = (Val (Sent (json (CountBody (estimate w) false))), w') /\
    log w' =
    log w ++ [EvEstimatedCount; EvCountDocuments; EvSleep 1000;
              EvEstimatedCount; EvCountDocuments; EvSleep 2000;
              EvEstimatedCount] /\
    cache w' =
    {| cachedCount := Some (estimate w);
       countCacheTime :=
         clock w + elapsed o1 + elapsed o2 + 1000
                 + elapsed o3 + elapsed o4 + 2000 |}.
Proof.
  intros Hr Hs Hp F1 F2 F3 F4 F5 R1 R2 R3 R4 T1 T2 T3 T4.
  destruct (fails_fault o2 F2) as [m2 Hm2].
  destruct (fails_fault o4 F4) as [m4 Hm4].
  rewrite count_handler_unfold.
  rewrite (count_try_fails w o1 o2 _ m2 Hr Hs Hp F1 Hm2).
  destruct (after_failed_count w o1 o2 _ 1000 Hr Hs Hp R1 R2 T1 T2)
    as (Hr1 & Hs1 & Hp1 & Hc1 & Hl1); [lia|].
  set (w1 := slept 1000 _) in *.
  rewrite (count_try_fails w1 o3 o4 _ m4 Hr1 Hs1 Hp1 F3 Hm4).
  destruct (after_failed_count w1 o3 o4 _ 2000 Hr1 Hs1 Hp1 R3 R4 T3 T4)
    as (Hr2 & Hs2 & Hp2 & Hc2 & Hl2); [lia|].
  set (w2 := slept 2000 _) in *.
  rewrite (count_try_stale w2 Hr2 Hs2).
  rewrite (count_fresh_estimated w2) by (rewrite Hp2; exact F5).
  eexists. split; [reflexivity|]. split.
  - rewrite log_with_cache, log_advance, Hl2, Hl1, <- !app_assoc.
    reflexivity.
  - unfold w2, w1. autorewrite with world. rewrite Hp. simpl.
    f_equal; lia.
Qed.

Lemma count_recovers_on_third_attempt_witness :
  exists w',
    count_handler
      (Sample.world Sample.threeDocs
         [Sample.throws "e1"; Sample.throws "c1"; Sample.throws "e2";
          Sample.throws "c2"; Sample.answersIn 7]) =
    (Val (Sent (json (CountBody 3 false))), w') /\
    log w' =
    [] ++ [EvEstimatedCount; EvCountDocuments; EvSleep 1000;
           EvEstimatedCount; EvCountDocuments; EvSleep 2000;
           EvEstimatedCount] /\
    cache w' =
    {| cachedCount := Some 3;
       countCacheTime := 1000 + 40 + 40 + 1000 + 40 + 40 + 2000 |}.
Proof.
  apply (count_recovers_on_third_attempt
           (Sample.world Sample.threeDocs
              [Sample.throws "e1"; Sample.throws "c1"; Sample.throws "e2";
               Sample.throws "c2"; Sample.answersIn 7])
           (Sample.throws "e1") (Sample.throws "c1") (Sample.throws "e2")
           (Sample.throws "c2") (Sample.answersIn 7) []);
    try reflexivity;
    try (unfold Spec.fails; simpl; discriminate);
    try (left; reflexivity);
    simpl; lia.
Defined.

(** X11: the connection is tested again in every attempt. When the first
    attempt finds it ready, fails in the store, and leaves it not ready,
    the request ends after one timer of 1000 ms with a 503, not with a
    500, and without a second query; this holds for the batch route and,
    with its two count queries, for the count route. *)
Theorem lost_connection_ends_retries (req : Request) (w : World) :
  readyState w = 1 ->
  (forall o rest c,
     pending w = o :: rest ->
     Spec.fails o -> connection o = Some c -> c <> 1 ->
     batch_handler req w =
     (Val (Sent notConnected),
      slept 1000 (advance (batch_event req) w))) /\
  (forall o1 o2 rest c,
     Spec.fresh (cache w) (clock w) = false ->
     pending w = o1 :: o2 :: rest ->
     Spec.fails o1 -> Spec.fails o2 -> connection o2 = Some c -> c <> 1 ->
     count_handler w =
     (Val (Sent notConnected),
      slept 1000 (advance EvCountDocuments (advance EvEstimatedCount w)))).
Proof.
  intros Hr. split.
  - intros o rest c Hp Hf Hc Hne. destruct (fails_fault o Hf) as [m Hm].
    rewrite batch_handler_unfold.
    rewrite (batch_try_thrown w req m Hr) by (rewrite Hp; exact Hm).
    rewrite batch_try_offline; [reflexivity|].
    rewrite readyState_slept. unfold advance; simpl. rewrite Hp; simpl.
    rewrite Hc. exact Hne.
  - intros o1 o2 rest c Hs Hp F1 F2 Hc Hne.
    destruct (fails_fault o2 F2) as [m2 Hm2].
    rewrite count_handler_unfold.
    rewrite (count_try_fails w o1 o2 _ m2 Hr Hs Hp F1 Hm2).
    rewrite count_try_offline; [reflexivity|].
    rewrite readyState_slept. unfold advance; simpl. rewrite Hp; simpl.
    rewrite Hc. exact Hne.
Qed.

Lemma lost_connection_ends_retries_witness :
  batch_handler Sample.noParams
    (Sample.world Sample.threeDocs
       [{| fault := Some "socket closed"; elapsed := 5;
           connection := Some 0 |}]) =
  (Val (Sent notConnected),
   slept 1000
     (advance (batch_event Sample.noParams)
        (Sample.world Sample.threeDocs
           [{| fault := Some "socket closed"; elapsed := 5;
               connection := Some 0 |}]))).
Proof.
  apply (proj1 (lost_connection_ends_retries Sample.noParams
                  (Sample.world Sample.threeDocs
                     [{| fault := Some "socket closed"; elapsed := 5;
                         connection := Some 0 |}]) eq_refl)
           {| fault := Some "socket closed"; elapsed := 5;
              connection := Some 0 |} [] 0).
  - reflexivity.
  - unfold Spec.fails; simpl; discriminate.
  - reflexivity.
  - lia.
Defined.

(** X12: every count, batch and legacy request is answered, whatever the
    store does: the handler never throws, never returns without a
    response and never runs out of attempts. The answer is the 503, a 500
    carrying an error message, or the route's 200 body. *)
Theorem every_request_is_answered (req : Request) (w : World) :
  (exists r w',
     count_handler w = (Val (Sent r), w') /\
     (r = notConnected \/ (exists m, r = countFailed m) \/
      exists c cached, r = json (CountBody c cached))) /\
  (exists r w',
     batch_handler req w = (Val (Sent r), w') /\
     (r = notConnected \/ (exists m, r = batchFailed m) \/
      r = batch_response req (collection w))) /\
  (exists r w',
     features_handler w = (Val (Sent r), w') /\
     (r = notConnected \/ (exists m, r = featuresFailed m) \/
      r = json (CollectionBody "FeatureCollection"
                  (map toFeature (collection w))))).
Proof.
  split; [|split].
  - rewrite count_handler_unfold.
    repeat count_attempt; eexists; eexists; (split; [reflexivity|]); eauto.
  - rewrite batch_handler_unfold.
    repeat batch_attempt; eexists; eexists; (split; [reflexivity|]);
      autorewrite with world; eauto.
  - destruct (Z.eq_dec (readyState w) 1) as [Hr|Hr].
    + rewrite (features_handler_ready w Hr).
      eexists; eexists. split; [reflexivity|].
      right; left. eexists. reflexivity.
    + rewrite (features_handler_offline w Hr).
      eexists; eexists. split; [reflexivity|]. left. reflexivity.
Qed.

(** A count request served from the cache. *)
Lemma count_handler_cached (w : World) (c : Z) :
  readyState w = 1 ->
  cachedCount (cache w) = Some c ->
  clock w - countCacheTime (cache w) < COUNT_CACHE_TTL ->
  count_handler w = (Val (Sent (json (CountBody c true))), w).
Proof.
  intros Hr Hc Ht.
  rewrite count_handler_unfold, (count_try_cached w c Hr Hc Ht).
  reflexivity.
Qed.

(** X13: count requests that come in one after the other while the clock
    reads less than 30 s more than the stamp of the cached count are all
    answered with that count and [cached: true], however many they are;
    none of them reaches the store, and the cache stays as it is. *)
Theorem polls_within_ttl_hit_cache (times : list Z) (w : World)
    (c stamp : Z) :
  readyState w = 1 ->
  cache w = {| cachedCount := Some c; countCacheTime := stamp |} ->
  Forall (fun t => t - stamp < COUNT_CACHE_TTL) times ->
  fst (Client.poll times w) =
  map (fun _ => Val (Sent (json (CountBody c true)))) times /\
  log (snd (Client.poll times w)) = log w /\
  pending (snd (Client.poll times w)) = pending w /\
  cache (snd (Client.poll times w)) = cache w.
Proof.
  revert w. induction times as [|t rest IH]; intros w Hr Hc Hall; simpl.
  - auto.
  - inversion Hall as [|? ? Ht Hrest]; subst.
    rewrite (count_handler_cached (Client.at_time t w) c);
      [| exact Hr | simpl; rewrite Hc; reflexivity
       | simpl; rewrite Hc; exact Ht ].
    specialize (IH (Client.at_time t w) Hr Hc Hrest).
    destruct (Client.poll rest (Client.at_time t w)) as [rs w2].
    simpl in *. destruct IH as (E & Hl & Hp & Hcache).
    rewrite E. auto.
Qed.

Lemma polls_within_ttl_hit_cache_witness :
  fst (Client.poll [100; 15000; 30099]
         (with_cache {| cachedCount := Some 42; countCacheTime := 100 |}
            (Sample.world Sample.threeDocs [Sample.throws "down"]))) =
  map (fun _ => Val (Sent (json (CountBody 42 true)))) [100; 15000; 30099] /\
  log (snd (Client.poll [100; 15000; 30099]
              (with_cache {| cachedCount := Some 42; countCacheTime := 100 |}
                 (Sample.world Sample.threeDocs [Sample.throws "down"])))) =
  [] /\
  pending (snd (Client.poll [100; 15000; 30099]
              (with_cache {| cachedCount := Some 42; countCacheTime := 100 |}
                 (Sample.world Sample.threeDocs [Sample.throws "down"])))) =
  [Sample.throws "down"] /\
  cache (snd (Client.poll [100; 15000; 30099]
              (with_cache {| cachedCount := Some 42; countCacheTime := 100 |}
                 (Sample.world Sample.threeDocs [Sample.throws "down"])))) =
  {| cachedCount := Some 42; countCacheTime := 100 |}.
Proof.
  apply (polls_within_ttl_hit_cache [100; 15000; 30099]
           (with_cache {| cachedCount := Some 42; countCacheTime := 100 |}
              (Sample.world Sample.threeDocs [Sample.throws "down"]))
           42 100).
  - reflexivity.
  - reflexivity.
  - repeat constructor.
Defined.

(** X14: only the count route writes the count cache: a batch request, a
    legacy request and a health request leave both cache variables as
    they were, whatever they are answered. *)
Theorem only_count_writes_cache (req : Request) (w : World) :
  cache (snd (batch_handler req w)) = cache w /\
  cache (snd (features_handler w)) = cache w /\
  cache (snd (Health.health_handler w)) = cache w.
Proof.
  split; [|split].
  - rewrite batch_handler_unfold.
    repeat batch_attempt; reflexivity.
  - destruct (Z.eq_dec (readyState w) 1) as [Hr|Hr].
    + rewrite (features_handler_ready w Hr). reflexivity.
    + rewrite (features_handler_offline w Hr). reflexivity.
  - reflexivity.
Qed.

(** X15: the health route always answers 200 with [status: "ok"] and the
    current instant, and touches nothing. It reports "connected" exactly
    when the ready state is 1; when it reports "disconnected", a count, a
    batch or a legacy request at that moment is turned away with a 503. *)
Theorem health_reports_connection (req : Request) (w : World) :
  exists r,
    Health.health_handler w = (Val r, w) /\
    Health.code r = 200 /\
    Health.status (Health.body r) = "ok" /\
    Health.timestamp (Health.body r) = clock w /\
    (Health.database (Health.body r) = "connected" \/
     Health.database (Health.body r) = "disconnected") /\
    (Health.database (Health.body r) = "connected" <-> readyState w = 1) /\
    (Health.database (Health.body r) = "disconnected" ->
     count_handler w = (Val (Sent notConnected), w) /\
     batch_handler req w = (Val (Sent notConnected), w) /\
     features_handler w = (Val (Sent notConnected), w)).
Proof.
  unfold Health.health_handler, bind, get_readyState, date_now, ret.
  eexists. split; [reflexivity|]. simpl.
  destruct (Z.eqb_spec (readyState w) 1) as [Hr|Hr].
  - repeat split; auto; discriminate.
  - repeat split; auto; try discriminate; try contradiction.
    + rewrite count_handler_unfold, (count_try_offline w Hr). reflexivity.
    + rewrite batch_handler_unfold, (batch_try_offline w req Hr).
      reflexivity.
    + apply features_handler_offline, Hr.
Qed.

Lemma health_reports_connection_witness :
  exists r,
    Health.health_handler (Sample.offline Sample.threeDocs) =
    (Val r, Sample.offline Sample.threeDocs) /\
    Health.database (Health.body r) = "disconnected" /\
    count_handler (Sample.offline Sample.threeDocs) =
    (Val (Sent notConnected), Sample.offline Sample.threeDocs).
Proof.
  destruct (health_reports_connection Sample.noParams
              (Sample.offline Sample.threeDocs))
    as (r & E & _ & _ & _ & [Hc|Hd] & Hiff & Hoff).
  - apply Hiff in Hc. simpl in Hc. lia.
  - exists r. split; [exact E|]. split; [exact Hd|]. apply Hoff, Hd.
Defined.

(** X16: the cap of 5000 ms in the batch route's backoff is never in
    force: the two timers a request can set are 1000 and 2000 ms; the
    formula reaches the cap only from the fourth attempt on, which the
    limit of three attempts excludes. From the first attempt on the wait
    grows with the attempt and stays between 1000 and 5000 ms. *)
Theorem backoff_cap_is_out_of_reach (attempt : Z) :
  1 <= attempt ->
  1000 <= waitTime attempt <= 5000 /\
  waitTime attempt <= waitTime (attempt + 1) /\
  (attempt < maxRetries -> waitTime attempt = 1000 * 2 ^ (attempt - 1) /\
                           waitTime attempt < 5000) /\
  (4 <= attempt -> waitTime attempt = 5000).
Proof.
  intros H1. unfold waitTime, maxRetries.
  assert (Hpow : forall a, 0 <= a -> 1 <= 2 ^ a).
  { intros a Ha. apply Z.lt_succ_r.
    pose proof (Z.pow_pos_nonneg 2 a). lia. }
  assert (Hstep : 2 ^ (attempt + 1 - 1) = 2 * 2 ^ (attempt - 1)).
  { replace (attempt + 1 - 1) with (Z.succ (attempt - 1)) by lia.
    apply Z.pow_succ_r. lia. }
  pose proof (Hpow (attempt - 1) ltac:(lia)) as Hp.
  repeat split; try lia.
  - assert (attempt = 1 \/ attempt = 2) as [->| ->] by lia;
      reflexivity.
  - assert (attempt = 1 \/ attempt = 2) as [->| ->] by lia;
      vm_compute; reflexivity.
  - intros H4.
    assert (8 <= 2 ^ (attempt - 1)).
    { change 8 with (2 ^ 3). apply Z.pow_le_mono_r; lia. }
    lia.
Qed.

Lemma backoff_cap_is_out_of_reach_witness :
  1000 <= waitTime 2 <= 5000 /\
  waitTime 2 <= waitTime (2 + 1) /\
  (2 < maxRetries -> waitTime 2 = 1000 * 2 ^ (2 - 1) /\ waitTime 2 < 5000) /\
  (4 <= 2 -> waitTime 2 = 5000).
Proof.
  apply (backoff_cap_is_out_of_reach 2). lia.
Defined.

(** What connectDB does when [MONGO_URI] is not set: it calls nothing. *)
Lemma connectDB_without_uri (p : Boot.Process) :
  Boot.unset (Boot.MONGO_URI (Boot.env p)) = true ->
  Boot.connectDB p =
  match Boot.NODE_ENV (Boot.env p) with
  | Some mode =>
      if String.eqb mode "development" then Boot.exit 1 p
      else (Val tt, p)
  | None => (Val tt, p)
  end.
Proof.
  intros H. unfold Boot.connectDB, Boot.try_catch, Boot.bind, Boot.get_env,
    Boot.throw. cbv beta iota. rewrite H. cbv beta iota.
  destruct (Boot.NODE_ENV (Boot.env p)) as [mode|]; [|reflexivity].
  destruct (String.eqb mode "development"); reflexivity.
Qed.

(** What connectDB does when the connect call throws. *)
Lemma connectDB_connect_thrown (p : Boot.Process) (m : string) :
  Boot.unset (Boot.MONGO_URI (Boot.env p)) = false ->
  fault (hd calm (Boot.pending p)) = Some m ->
  exists uri,
    Boot.MONGO_URI (Boot.env p) = Some uri /\
    Boot.connectDB p =
    let p1 := Boot.called (Boot.EvConnect uri) (Boot.readyState p) p in
    match Boot.NODE_ENV (Boot.env p) with
    | Some mode =>
        if String.eqb mode "development" then Boot.exit 1 p1
        else (Val tt, p1)
    | None => (Val tt, p1)
    end.
Proof.
  intros H Hf.
  destruct (Boot.MONGO_URI (Boot.env p)) as [uri|] eqn:Hu;
    [|discriminate H].
  exists uri. split; [reflexivity|].
  unfold Boot.connectDB, Boot.try_catch, Boot.bind, Boot.get_env,
    Boot.connect. cbv beta iota. rewrite Hu, H, Hf. cbv beta iota zeta.
  change (Boot.env (Boot.called (Boot.EvConnect uri) (Boot.readyState p) p))
    with (Boot.env p).
  destruct (Boot.NODE_ENV (Boot.env p)) as [mode|]; [|reflexivity].
  destruct (String.eqb mode "development"); reflexivity.
Qed.

(** What connectDB does when the connect call returns: the indexes are
    set up, and an error there is dropped. *)
Lemma connectDB_connected (p : Boot.Process) :
  Boot.unset (Boot.MONGO_URI (Boot.env p)) = false ->
  fault (hd calm (Boot.pending p)) = None ->
  exists uri p',
    Boot.MONGO_URI (Boot.env p) = Some uri /\
    Boot.connectDB p = (Val tt, p') /\
    Boot.readyState p' = 1 /\
    Boot.exitCode p' = Boot.exitCode p /\
    exists evs,
      Boot.log p' =
      Boot.log p ++ Boot.EvConnect uri :: Boot.EvCreateIndex "_id" :: evs /\
      (evs = [] \/ evs = [Boot.EvCreateIndex "file"]).
Proof.
  intros H Hf.
  destruct (Boot.MONGO_URI (Boot.env p)) as [uri|] eqn:Hu;
    [|discriminate H].
  exists uri.
  unfold Boot.connectDB, Boot.setupIndexes, Boot.try_catch, Boot.bind,
    Boot.get_env, Boot.connect, Boot.createIndex, Boot.ret.
  cbv beta iota. rewrite Hu, H, Hf. cbv beta iota zeta.
  cbn [Boot.pending Boot.called Boot.readyState Boot.env Boot.log
       Boot.exitCode].
  destruct (fault (hd calm (tl (Boot.pending p)))) as [m1|].
  - eexists. split; [reflexivity|]. split; [reflexivity|].
    split; [reflexivity|]. split; [reflexivity|].
    exists []. split; [|left; reflexivity].
    cbn [Boot.log Boot.called]. rewrite <- app_assoc. reflexivity.
  - cbv beta iota.
    cbn [Boot.pending Boot.called Boot.readyState Boot.env Boot.log
         Boot.exitCode].
    destruct (fault (hd calm (tl (tl (Boot.pending p))))) as [m2|];
      eexists; (split; [reflexivity|]); (split; [reflexivity|]);
      (split; [reflexivity|]); (split; [reflexivity|]);
      exists [Boot.EvCreateIndex "file"];
      (split; [|right; reflexivity]);
      cbn [Boot.log Boot.called]; rewrite <- !app_assoc; reflexivity.
Qed.

(** X17: connectDB never throws, and it stops the process only in one
    case: [NODE_ENV] is exactly "development" and either [MONGO_URI] is
    unset or empty or the connect call throws; the exit code is then 1.
    With [NODE_ENV] unset or different the server stays up without a
    connection. When [MONGO_URI] is unset no connect call is made. When
    the connect call returns, the connection is ready and the process goes
    on, whether or not the two index calls that follow succeed. *)
Theorem connectDB_exits_only_in_development (p : Boot.Process) :
  Boot.exitCode p = None ->
  exists p',
    Boot.connectDB p = (Val tt, p') /\
    (Boot.exitCode p' = None \/ Boot.exitCode p' = Some 1) /\
    (Boot.exitCode p' = Some 1 <->
     Boot.NODE_ENV (Boot.env p) = Some "development" /\
     (Boot.unset (Boot.MONGO_URI (Boot.env p)) = true \/
      fault (hd calm (Boot.pending p)) <> None)) /\
    (Boot.unset (Boot.MONGO_URI (Boot.env p)) = true ->
     Boot.readyState p' = Boot.readyState p /\
     Boot.pending p' = Boot.pending p /\
     (Boot.log p' = Boot.log p \/
      Boot.log p' = Boot.log p ++ [Boot.EvExit 1])) /\
    (Boot.unset (Boot.MONGO_URI (Boot.env p)) = false ->
     fault (hd calm (Boot.pending p)) = None ->
     Boot.readyState p' = 1 /\ Boot.exitCode p' = None).
Proof.
  intros Hx.
  assert (Hdev : forall mode : string,
            String.eqb mode "development" = true <->
            Some mode = Some "development").
  { intros mode. rewrite String.eqb_eq. split; congruence. }
  destruct (Boot.unset (Boot.MONGO_URI (Boot.env p))) eqn:Hu.
  - rewrite (connectDB_without_uri p Hu).
    destruct (Boot.NODE_ENV (Boot.env p)) as [mode|] eqn:Hn.
    + destruct (String.eqb mode "development") eqn:Hm.
      * eexists. split; [reflexivity|]. simpl.
        apply Hdev in Hm. repeat split; auto; discriminate.
      * eexists. split; [reflexivity|]. rewrite Hx.
        repeat split; auto; try discriminate.
        intros [Hd _]. apply Hdev in Hd. congruence.
    + eexists. split; [reflexivity|]. rewrite Hx.
      repeat split; auto; try discriminate.
      intros [Hd _]. discriminate Hd.
  - destruct (fault (hd calm (Boot.pending p))) as [m|] eqn:Hf.
    + destruct (connectDB_connect_thrown p m Hu Hf) as (uri & _ & ->).
      cbv zeta.
      destruct (Boot.NODE_ENV (Boot.env p)) as [mode|] eqn:Hn.
      * destruct (String.eqb mode "development") eqn:Hm.
        -- eexists. split; [reflexivity|]. simpl.
           apply Hdev in Hm.
           repeat split; auto; try discriminate.
           right. discriminate.
        -- eexists. split; [reflexivity|]. simpl. rewrite Hx.
           repeat split; auto; try discriminate.
           intros [Hd _]. apply Hdev in Hd. congruence.
      * eexists. split; [reflexivity|]. simpl. rewrite Hx.
        repeat split; auto; try discriminate.
        intros [Hd _]. discriminate Hd.
    + destruct (connectDB_connected p Hu Hf)
        as (uri & p' & _ & E & Hr & He & _).
      exists p'. split; [exact E|]. rewrite He, Hx.
      repeat split; auto; try discriminate.
      intros [_ [Hd|Hd]]; [discriminate Hd | contradiction].
Qed.

Lemma connectDB_exits_only_in_development_witness :
  exists p',
    Boot.connectDB
      {| Boot.env := {| Boot.MONGO_URI := None; Boot.NODE_ENV := None;
                        Boot.PORT := None |};
         Boot.readyState := 0; Boot.pending := []; Boot.log := [];
         Boot.exitCode := None |} = (Val tt, p') /\
    Boot.exitCode p' = None /\ Boot.readyState p' = 0 /\ Boot.log p' = [].
Proof.
  destruct (connectDB_exits_only_in_development
              {| Boot.env := {| Boot.MONGO_URI := None; Boot.NODE_ENV := None;
                                Boot.PORT := None |};
                 Boot.readyState := 0; Boot.pending := []; Boot.log := [];
                 Boot.exitCode := None |} eq_refl)
    as (p' & E & _ & _ & _ & _).
  exists p'. split; [exact E|].
  vm_compute in E. injection E as <-. repeat split.
Defined.

End Extras.
